(** * Antigravity-Manager: warmup schedule settings and token-pool watchdog

  A shallow embedding of
  - [src/pages/Settings.tsx] (the scheduled-warmup block of the settings
    page: enable toggle, [getWarmupTime], [updateTimePoint]),
  - [src/components/settings/SmartWarmup.tsx] (the warmup card:
    [handleEnabledChange], [toggleModel], the peak-hour handlers and
    [calculateWarmupTime]),
  - the hook [useTokenPoolAutoConnect] (the connection watchdog),
  followed by the properties of the specification that concern them. *)

From Stdlib Require Import ZArith Ascii String Lia.
From Stdlib Require Import Numbers.DecimalString.
From stdpp Require Import base tactics option list gmap strings.

Local Open Scope string_scope.
Local Open Scope Z_scope.

(** ** The fragment of JavaScript the handlers rely on *)

Module JS.

(** A JavaScript number as the handlers meet it: an integer, or [NaN]
    ([None]).  Every number built by the modelled code is an integer far
    below 2^53, where double arithmetic is exact. *)
Abbreviation num := (option Z).

Definition NaN : num := None.

Definition lift2 (f : Z -> Z -> Z) (a b : num) : num :=
  match a, b with
  | Some x, Some y => Some (f x y)
  | _, _ => None
  end.

Definition add := lift2 Z.add.
Definition sub := lift2 Z.sub.
Definition mul := lift2 Z.mul.

(** [Math.abs] *)
Definition abs (a : num) : num := Z.abs <$> a.

(** Comparisons with [NaN] are false. *)
Definition lt (a b : num) : bool :=
  match a, b with Some x, Some y => x <? y | _, _ => false end.
Definition gt (a b : num) : bool := lt b a.
Definition ge (a b : num) : bool :=
  match a, b with Some x, Some y => y <=? x | _, _ => false end.

(** [Math.floor (a / d)] for a positive integer [d]. *)
Definition floor_div (a : num) (d : Z) : num := (fun x => x / d) <$> a.

(** [a % d]: the remainder has the sign of the dividend. *)
Definition rem (a : num) (d : Z) : num := (fun x => Z.rem x d) <$> a.

Definition isDigit (c : ascii) : bool :=
  let n := nat_of_ascii c in (48 <=? n)%nat && (n <=? 57)%nat.

Fixpoint allDigits (s : string) : bool :=
  match s with
  | EmptyString => true
  | String c s' => isDigit c && allDigits s'
  end.

Fixpoint digitsValue (acc : Z) (s : string) : Z :=
  match s with
  | EmptyString => acc
  | String c s' => digitsValue (10 * acc + (Z.of_nat (nat_of_ascii c) - 48)) s'
  end.

(** [Number(s)] on the texts a time field is made of: a run of decimal
    digits is its value and the empty text is 0.  Any other text is taken
    to be [NaN]; signs, fractions, exponents and surrounding blanks, which
    [Number] also reads, do not occur in a time field and are outside this
    model. *)
Definition Number (s : string) : num :=
  if allDigits s then Some (digitsValue 0 s) else NaN.

(** [s.split(sep)] for a one-character separator. *)
Fixpoint split (sep : ascii) (s : string) : list string :=
  match s with
  | EmptyString => [EmptyString]
  | String c s' =>
      if Ascii.eqb c sep then EmptyString :: split sep s'
      else match split sep s' with
           | x :: xs => String c x :: xs
           | [] => [String c EmptyString]
           end
  end.

(** [n.toString()] *)
Definition toString (a : num) : string :=
  match a with
  | None => "NaN"
  | Some x => NilZero.string_of_int (Z.to_int x)
  end.

Fixpoint repeatChar (c : ascii) (n : nat) : string :=
  match n with
  | O => EmptyString
  | S n' => String c (repeatChar c n')
  end.

(** [s.padStart(n, c)] for a one-character filler. *)
Definition padStart (n : nat) (c : ascii) (s : string) : string :=
  repeatChar c (n - String.length s) +:+ s.

(** Truthiness of a string: the empty string is falsy. *)
Definition truthy (s : string) : bool := negb (String.eqb s "").

(** A slot of an array: a hole (never written), an element that is
    [undefined] or [null], or a value. *)
Inductive slot (A : Type) : Type :=
| hole
| undef
| val (a : A).
Arguments hole {A}.
Arguments undef {A}.
Arguments val {A} a.

(** [l[i]]: [None] stands for [undefined], which is what a hole and an index
    past the end read as. *)
Definition index {A} (i : nat) (l : list (slot A)) : option A :=
  match l !! i with
  | Some (val a) => Some a
  | _ => None
  end.

(** [[...l]]: a copy in which the holes have become [undefined] elements. *)
Definition spread {A} (l : list (slot A)) : list (slot A) :=
  (fun s => match s with hole => undef | _ => s end) <$> l.

(** [l[i] = v]: in range the slot is overwritten, past the end the array
    grows and the slots in between are holes. *)
Definition set_index {A} (i : nat) (v : A) (l : list (slot A)) : list (slot A) :=
  if decide (i < length l)%nat then <[i := val v]> l
  else l ++ replicate (i - length l) hole ++ [val v].

(** [l.some(s => p(s))] where [p] reads a property of [s]: holes are
    skipped, an [undefined] element makes the callback throw a TypeError
    ([None]), and the scan stops at the first hit. *)
Fixpoint some {A} (p : A -> bool) (l : list (slot A)) : option bool :=
  match l with
  | [] => Some false
  | hole :: r => some p r
  | undef :: _ => None
  | val a :: r => if p a then Some true else some p r
  end.

(** Element [i] of [parts.map(Number)] used in arithmetic: a missing element
    is [undefined], which arithmetic turns into [NaN]. *)
Definition numAt (i : nat) (parts : list num) : num :=
  match parts !! i with
  | Some n => n
  | None => NaN
  end.

End JS.

(** ** [src/types/config.ts]: the configuration object *)

Module TimeRange.
(** Modelled from the spec: the declaration of the schedule entry type is
    not among the sources; its fields are those the settings page reads and
    writes ([start], [end], and an [enabled] flag that may be absent). *)
Record t : Type := mk {
  start : string;
  end_ : string;
  enabled : option bool
}.

#[global] Instance eq_dec : EqDecision t.
Proof. solve_decision. Defined.
End TimeRange.

Inductive WarmupMode : Type := immediate | peak_based.

#[global] Instance WarmupMode_eq_dec : EqDecision WarmupMode.
Proof. solve_decision. Defined.

Module ScheduledWarmupConfig.
(** Modelled from the spec: the declaration of [ScheduledWarmupConfig] is
    not among the sources; its fields are those the two components use.
    Every field but [enabled] may be absent ([None]). *)
Record t : Type := mk {
  enabled : bool;
  schedules : option (gmap string (list (JS.slot TimeRange.t)));
  monitored_models : option (list string);
  peak_hours : option (list (JS.slot string));
  warmup_mode : option WarmupMode
}.
End ScheduledWarmupConfig.

Module TokenPoolConfig.
(** Modelled from the spec: the declaration is not among the sources; the
    two fields are those the watchdog reads. *)
Record t : Type := mk {
  auto_connect : bool;
  server_url : string
}.
End TokenPoolConfig.

Module ProxyConfig.
Record t : Type := mk {
  enabled : bool;
  port : Z;
  api_key : string;
  auto_start : bool;
  request_timeout : Z;
  enable_logging : bool;
  upstream_proxy_enabled : bool;
  upstream_proxy_url : string
}.
End ProxyConfig.

Module AppConfig.
(** Modelled from the spec: the declaration of [AppConfig] is not among the
    sources; the fields are those of the settings page's initial form data,
    with the optional [token_pool] block the watchdog reads. *)
Record t : Type := mk {
  language : string;
  theme : string;
  auto_refresh : bool;
  refresh_interval : Z;
  auto_sync : bool;
  sync_interval : Z;
  scheduled_warmup : option ScheduledWarmupConfig.t;
  proxy : ProxyConfig.t;
  token_pool : option TokenPoolConfig.t
}.

(** [{ ...c, scheduled_warmup: sw }] *)
Definition with_scheduled_warmup (c : t) (sw : ScheduledWarmupConfig.t) : t :=
  mk (language c) (theme c) (auto_refresh c) (refresh_interval c)
     (auto_sync c) (sync_interval c) (Some sw) (proxy c) (token_pool c).
End AppConfig.

(** ** Reading a time text

    Both components read an ["HH:MM"] text with the same two expressions. *)

Module TimeText.

(** [const [h, m] = s.split(':').map(Number)] *)
Definition timeParts (s : string) : list JS.num :=
  JS.Number <$> JS.split ":"%char s.

(** [h * 60 + m] *)
Definition minutesOf (s : string) : JS.num :=
  let parts := timeParts s in
  JS.add (JS.mul (JS.numAt 0 parts) (Some 60)) (JS.numAt 1 parts).

End TimeText.

(** ** [src/pages/Settings.tsx]: the scheduled-warmup block *)

Module Settings.

Import TimeText.

Abbreviation schedule := (list (JS.slot TimeRange.t)).

Inductive ToastKind : Type := success | error.

Record Toast : Type := mkToast {
  message : string;
  kind : ToastKind
}.

(** What the component holds: the form data (React state) and the toasts
    shown so far, latest first. *)
Record Page : Type := mkPage {
  formData : AppConfig.t;
  toasts : list Toast
}.

Definition setFormData (c : AppConfig.t) (p : Page) : Page :=
  mkPage c (toasts p).

Definition showToast (msg : string) (k : ToastKind) (p : Page) : Page :=
  mkPage (formData p) (mkToast msg k :: toasts p).

(** The three entries written out at lines 26-30, 386-390 and 439-441. *)
Definition defaultTimes : schedule :=
  [ JS.val (TimeRange.mk "10:00" "10:00" (Some true));
    JS.val (TimeRange.mk "15:00" "15:00" (Some true));
    JS.val (TimeRange.mk "21:00" "21:00" (Some true)) ].

Definition defaultSchedules : gmap string schedule :=
  {[ "default" := defaultTimes ]}.

(** The initial value of [formData] (lines 16-45). *)
Definition initialFormData : AppConfig.t :=
  AppConfig.mk "zh" "system" false 15 false 5
    (Some (ScheduledWarmupConfig.mk false (Some defaultSchedules) None None None))
    (ProxyConfig.mk false 8080 "" false 120 false false "")
    None.

Definition initialPage : Page := mkPage initialFormData [].

(** [c.scheduled_warmup?.schedules] *)
Definition schedulesOf (c : AppConfig.t) : option (gmap string schedule) :=
  AppConfig.scheduled_warmup c ≫= ScheduledWarmupConfig.schedules.

(** [c.scheduled_warmup?.schedules?.['default']] *)
Definition defaultOf (c : AppConfig.t) : option schedule :=
  schedulesOf c ≫= (.!! "default").

(** [hasExistingSchedules] (lines 393-396), as a truth value; [None] when the
    callback of [some] throws. *)
Definition hasExistingSchedules (c : AppConfig.t) : option bool :=
  match schedulesOf c with
  | None => Some false
  | Some existingSchedules =>
      match existingSchedules !! "default" with
      | None => Some false
      | Some d =>
          if (0 <? length d)%nat
          then JS.some (fun s => JS.truthy (TimeRange.start s)) d
          else Some false
      end
  end.

(** [{ ...c.scheduled_warmup, enabled: e, schedules: s }] *)
Definition withEnabledSchedules (c : AppConfig.t) (e : bool)
    (s : option (gmap string schedule)) : ScheduledWarmupConfig.t :=
  match AppConfig.scheduled_warmup c with
  | Some sw =>
      ScheduledWarmupConfig.mk e s
        (ScheduledWarmupConfig.monitored_models sw)
        (ScheduledWarmupConfig.peak_hours sw)
        (ScheduledWarmupConfig.warmup_mode sw)
  | None => ScheduledWarmupConfig.mk e s None None None
  end.

(** The [onChange] of the enable switch (lines 384-405); [None] when it
    throws, in which case nothing is stored. *)
Definition onEnableChange (checked : bool) (p : Page) : option Page :=
  match hasExistingSchedules (formData p) with
  | None => None
  | Some has =>
      Some (setFormData
              (AppConfig.with_scheduled_warmup (formData p)
                 (withEnabledSchedules (formData p) checked
                    (if has then schedulesOf (formData p) else Some defaultSchedules)))
              p)
  end.

(** [getWarmupTime] (lines 428-434); [None] when [m] is [undefined] and
    [m.toString()] throws. *)
Definition getWarmupTime (peakTime : string) : option string :=
  if negb (JS.truthy peakTime) then Some "--:--"
  else
    let parts := timeParts peakTime in
    let h := JS.numAt 0 parts in
    let warmupHour := JS.sub h (Some 5) in
    let warmupHour := if JS.lt warmupHour (Some 0) then JS.add warmupHour (Some 24) else warmupHour in
    m ← parts !! 1%nat;
    Some (JS.padStart 2 "0"%char (JS.toString warmupHour) +:+ ":" +:+
          JS.padStart 2 "0"%char (JS.toString m)).

(** Lines 460-461: [let diff = Math.abs(a - b); if (diff > 720) diff = 1440 - diff]. *)
Definition intervalDiff (a b : JS.num) : JS.num :=
  let diff := JS.abs (JS.sub a b) in
  if JS.gt diff (Some 720) then JS.sub (Some 1440) diff else diff.

Definition minInterval : Z := 5 * 60.

(** The body of the loop for one other entry (lines 453-467): [true] when
    the entry makes the update return early. *)
Definition tooClose (newMinutes : JS.num) (other : TimeRange.t) : bool :=
  if negb (JS.truthy (TimeRange.start other))
     || bool_decide (TimeRange.enabled other = Some false)
  then false
  else JS.lt (intervalDiff newMinutes (minutesOf (TimeRange.start other)))
             (Some minInterval).

(** The loop of lines 451-468 from index [i] on, over the rest of the
    array: [true] when some iteration returns early. *)
Fixpoint intervalError (idx : nat) (newMinutes : JS.num) (i : nat) (rest : schedule) : bool :=
  match rest with
  | [] => false
  | s :: rest' =>
      if decide (i = idx) then intervalError idx newMinutes (S i) rest'
      else match s with
           | JS.val other =>
               if tooClose newMinutes other then true
               else intervalError idx newMinutes (S i) rest'
           | _ => intervalError idx newMinutes (S i) rest'
           end
  end.

(** The argument of [updateTimePoint]: each field may be absent. *)
Record Updates : Type := mkUpdates {
  u_start : option string;
  u_enabled : option bool
}.

(** The entry stored at lines 471-476. *)
Definition updatedEntry (updates : Updates) (old : option TimeRange.t) : TimeRange.t :=
  TimeRange.mk
    (default (default "" (TimeRange.start <$> old)) (u_start updates))
    (default (default "" (TimeRange.end_ <$> old)) (u_start updates))
    (Some (default (default true (old ≫= TimeRange.enabled)) (u_enabled updates))).

(** [newTimes] as first built at lines 438-442. *)
Definition currentTimes (c : AppConfig.t) : schedule :=
  JS.spread (default defaultTimes (defaultOf c)).

(** [updateTimePoint] of row [idx] (lines 437-484). *)
Definition updateTimePoint (idx : nat) (updates : Updates) (p : Page) : Page :=
  let newTimes := currentTimes (formData p) in
  let rejected :=
    match u_start updates with
    | Some newTimeStr => intervalError idx (minutesOf newTimeStr) 0 newTimes
    | None => false
    end in
  if rejected
  then showToast "settings.account.scheduled_warmup.interval_error" error p
  else
    let newTimes := JS.set_index idx (updatedEntry updates (JS.index idx newTimes)) newTimes in
    setFormData
      (AppConfig.with_scheduled_warmup (formData p)
         (ScheduledWarmupConfig.mk true (Some {[ "default" := newTimes ]}) None None None))
      p.

End Settings.

(** ** [src/components/settings/SmartWarmup.tsx]: the warmup card *)

Module SmartWarmup.

Import TimeText.

Abbreviation config := ScheduledWarmupConfig.t.

(** The ids of [warmupModelsOptions] (lines 14-19), in order. *)
Definition warmupModelsOptions : list string :=
  [ "gemini-3-flash"; "gemini-3-pro-high"; "claude-sonnet-4-5"; "gemini-3-pro-image" ].

Definition defaultPeakHours : list (JS.slot string) :=
  [ JS.val "10:00"; JS.val "15:00"; JS.val "20:00" ].

(** [config.peak_hours || [...]] (line 22): an array, even an empty one, is
    truthy. *)
Definition peakHours (c : config) : list (JS.slot string) :=
  default defaultPeakHours (ScheduledWarmupConfig.peak_hours c).

(** [config.warmup_mode || 'peak_based'] (line 23) *)
Definition warmupMode (c : config) : WarmupMode :=
  default peak_based (ScheduledWarmupConfig.warmup_mode c).

Definition with_monitored_models (c : config) (ms : list string) : config :=
  ScheduledWarmupConfig.mk (ScheduledWarmupConfig.enabled c)
    (ScheduledWarmupConfig.schedules c) (Some ms)
    (ScheduledWarmupConfig.peak_hours c) (ScheduledWarmupConfig.warmup_mode c).

Definition with_peak_hours (c : config) (hs : list (JS.slot string)) : config :=
  ScheduledWarmupConfig.mk (ScheduledWarmupConfig.enabled c)
    (ScheduledWarmupConfig.schedules c) (ScheduledWarmupConfig.monitored_models c)
    (Some hs) (ScheduledWarmupConfig.warmup_mode c).

Definition with_warmup_mode (c : config) (m : WarmupMode) : config :=
  ScheduledWarmupConfig.mk (ScheduledWarmupConfig.enabled c)
    (ScheduledWarmupConfig.schedules c) (ScheduledWarmupConfig.monitored_models c)
    (ScheduledWarmupConfig.peak_hours c) (Some m).

Definition with_enabled (c : config) (e : bool) : config :=
  ScheduledWarmupConfig.mk e
    (ScheduledWarmupConfig.schedules c) (ScheduledWarmupConfig.monitored_models c)
    (ScheduledWarmupConfig.peak_hours c) (ScheduledWarmupConfig.warmup_mode c).

(** [!a || a.length === 0] *)
Definition missingOrEmpty {A} (a : option (list A)) : bool :=
  match a with
  | None => true
  | Some l => bool_decide (length l = 0%nat)
  end.

(** A handler either calls [onChange] with a new configuration ([Some]) or
    returns without calling it ([None]). *)

(** [handleEnabledChange] (lines 25-39) *)
Definition handleEnabledChange (enabled : bool) (c : config) : option config :=
  let newConfig := with_enabled c enabled in
  let newConfig :=
    if enabled && missingOrEmpty (ScheduledWarmupConfig.monitored_models c)
    then with_monitored_models newConfig warmupModelsOptions
    else newConfig in
  let newConfig :=
    if missingOrEmpty (ScheduledWarmupConfig.peak_hours newConfig)
    then with_peak_hours newConfig defaultPeakHours
    else newConfig in
  let newConfig :=
    match ScheduledWarmupConfig.warmup_mode newConfig with
    | None => with_warmup_mode newConfig peak_based
    | Some _ => newConfig
    end in
  Some newConfig.

(** [toggleModel] (lines 41-54) *)
Definition toggleModel (model : string) (c : config) : option config :=
  let currentModels := default [] (ScheduledWarmupConfig.monitored_models c) in
  if bool_decide (model ∈ currentModels) then
    if (length currentModels <=? 1)%nat then None
    else Some (with_monitored_models c
                 (filter (fun m => m ≠ model) currentModels))
  else Some (with_monitored_models c (currentModels ++ [model])).

(** [handleModeChange] (lines 56-58) *)
Definition handleModeChange (mode : WarmupMode) (c : config) : option config :=
  Some (with_warmup_mode c mode).

(** [handlePeakHourChange] (lines 60-64) *)
Definition handlePeakHourChange (index : nat) (value : string) (c : config) : option config :=
  let newPeakHours := JS.spread (peakHours c) in
  let newPeakHours := JS.set_index index value newPeakHours in
  Some (with_peak_hours c newPeakHours).

(** [addPeakHour] (lines 66-69) *)
Definition addPeakHour (c : config) : option config :=
  if (6 <=? length (peakHours c))%nat then None
  else Some (with_peak_hours c (JS.spread (peakHours c) ++ [JS.val "12:00"])).

(** [l.filter((_, i) => i !== index)] from position [i] on: holes are
    skipped and the result is dense. *)
Fixpoint filterOtherIndex {A} (index i : nat) (l : list (JS.slot A)) : list (JS.slot A) :=
  match l with
  | [] => []
  | s :: r =>
      match s with
      | JS.hole => filterOtherIndex index (S i) r
      | _ => if decide (i = index) then filterOtherIndex index (S i) r
             else s :: filterOtherIndex index (S i) r
      end
  end.

(** [removePeakHour] (lines 71-75) *)
Definition removePeakHour (index : nat) (c : config) : option config :=
  if (length (peakHours c) <=? 1)%nat then None
  else Some (with_peak_hours c (filterOtherIndex index 0 (peakHours c))).

(** The parent stores what [onChange] is given; without a call the
    configuration stays as it is. *)
Definition applied (h : config -> option config) (c : config) : config :=
  default c (h c).

(** [calculateWarmupTime] (lines 78-85) *)
Definition calculateWarmupTime (peakTime : string) : string :=
  let peakMinutes := minutesOf peakTime in
  let warmupMinutes :=
    if JS.ge peakMinutes (Some 300) then JS.sub peakMinutes (Some 300)
    else JS.sub (JS.add (Some 1440) peakMinutes) (Some 300) in
  let warmupH := JS.floor_div warmupMinutes 60 in
  let warmupM := JS.rem warmupMinutes 60 in
  JS.padStart 2 "0"%char (JS.toString warmupH) +:+ ":" +:+
  JS.padStart 2 "0"%char (JS.toString warmupM).

End SmartWarmup.

(** ** The hook [useTokenPoolAutoConnect]: the connection watchdog

    An [async] function runs without interruption up to its next [await];
    the hook is therefore modelled by the pieces of [checkAndConnect] between
    its two suspension points, and by the events that make one of them run:
    React running the effect, the interval firing, and the settling of a
    pending [invoke]. *)

Module TokenPool.

(** The [invoke] commands sent to the backend. *)
Inductive Call : Type :=
| tokenpool_status
| tokenpool_connect (server_url : string).

#[global] Instance Call_eq_dec : EqDecision Call.
Proof. solve_decision. Defined.

(** One call of [checkAndConnect] that got past line 23: suspended at the
    status query (holding the [config] its closure captured), suspended at
    the connect call, or returned. *)
Inductive Task : Type :=
| AwaitingStatus (config : AppConfig.t)
| AwaitingConnect
| Returned.

(** The refs of the hook and what it has done so far.  [retryInterval] is
    the running timer, standing for the closure it fires: [checkAndConnect]
    of the effect run that captured this [config]. *)
Record Hook : Type := mkHook {
  isConnecting : bool;
  retryInterval : option AppConfig.t;
  tasks : list Task;
  calls : list Call;
  console : list string
}.

Definition mounting : Hook := mkHook false None [] [] [].

Definition defaultServerUrl : string := "ws://127.0.0.1:8046/ws/supplier".

(** [config.token_pool?.server_url || 'ws://127.0.0.1:8046/ws/supplier'] (line 34) *)
Definition serverUrl (config : AppConfig.t) : string :=
  match AppConfig.token_pool config with
  | Some tp =>
      if JS.truthy (TokenPoolConfig.server_url tp) then TokenPoolConfig.server_url tp
      else defaultServerUrl
  | None => defaultServerUrl
  end.

(** [config?.token_pool?.auto_connect] as a truth value (line 13) *)
Definition autoConnect (config : option AppConfig.t) : bool :=
  match config ≫= AppConfig.token_pool with
  | Some tp => TokenPoolConfig.auto_connect tp
  | None => false
  end.

(** [status.status === 'Disconnected' || status.status.startsWith('Error')] (line 30) *)
Definition needsConnect (status : string) : bool :=
  String.eqb status "Disconnected" || String.prefix "Error" status.

(** [checkAndConnect] from its call to the first [await] (lines 23-27). *)
Definition checkAndConnect (config : AppConfig.t) (h : Hook) : Hook :=
  if isConnecting h then h
  else mkHook (isConnecting h) (retryInterval h)
         (tasks h ++ [AwaitingStatus config])
         (calls h ++ [tokenpool_status])
         (console h).

(** The status query of task [i] has settled (lines 27-37 and 46-48): with
    an error it is logged; with a status that needs it, the flag is set and
    the connect call goes out. *)
Definition statusSettled (i : nat) (r : string + string) (h : Hook) : Hook :=
  match tasks h !! i with
  | Some (AwaitingStatus config) =>
      match r with
      | inl _ =>
          mkHook (isConnecting h) (retryInterval h)
            (<[i := Returned]> (tasks h)) (calls h)
            (console h ++ ["[TokenPool] Failed to check status:"])
      | inr status =>
          if needsConnect status then
            mkHook true (retryInterval h)
              (<[i := AwaitingConnect]> (tasks h))
              (calls h ++ [tokenpool_connect (serverUrl config)])
              (console h ++ ["[TokenPool] Auto-connecting..."])
          else
            mkHook (isConnecting h) (retryInterval h)
              (<[i := Returned]> (tasks h)) (calls h) (console h)
      end
  | _ => h
  end.

(** The connect call of task [i] has settled (lines 37-44). *)
Definition connectSettled (i : nat) (ok : bool) (h : Hook) : Hook :=
  match tasks h !! i with
  | Some AwaitingConnect =>
      mkHook false (retryInterval h)
        (<[i := Returned]> (tasks h)) (calls h)
        (console h ++ [if ok then "[TokenPool] Connected successfully"
                       else "[TokenPool] Auto-connect failed:"])
  | _ => h
  end.

(** [clearInterval(retryInterval.current); retryInterval.current = null]
    (lines 15-18 and 58-61). *)
Definition clearRetryInterval (h : Hook) : Hook :=
  mkHook (isConnecting h) None (tasks h) (calls h) (console h).

(** The body of the effect (lines 13-55). *)
Definition effect (config : option AppConfig.t) (h : Hook) : Hook :=
  match config with
  | Some c =>
      if autoConnect config then
        let h := checkAndConnect c h in
        mkHook (isConnecting h) (Some c) (tasks h) (calls h) (console h)
      else clearRetryInterval h
  | None => clearRetryInterval h
  end.

Inductive Event : Type :=
| EffectRun (config : option AppConfig.t)
| Unmount
| Tick
| StatusSettled (i : nat) (result : string + string)
| ConnectSettled (i : nat) (ok : bool).

(** React runs the clean-up of the previous effect run before the next run
    and at unmount; a run that returned no clean-up had cleared the timer
    itself. *)
Definition step (h : Hook) (e : Event) : Hook :=
  match e with
  | EffectRun config => effect config (clearRetryInterval h)
  | Unmount => clearRetryInterval h
  | Tick =>
      match retryInterval h with
      | Some c => checkAndConnect c h
      | None => h
      end
  | StatusSettled i r => statusSettled i r h
  | ConnectSettled i ok => connectSettled i ok h
  end.

Definition run (h : Hook) (es : list Event) : Hook := foldl step h es.

(** The connect calls that have been sent and have not settled. *)
Definition awaitingConnect (t : Task) : bool :=
  match t with AwaitingConnect => true | _ => false end.

Definition connectsInFlight (h : Hook) : nat :=
  length (filter (fun t => awaitingConnect t = true) (tasks h)).

End TokenPool.

(** ** [src/pages/Settings.tsx]: the launch arguments field *)

Module LaunchArgs.

(** A text is its sequence of code units, each below 256.  Among those,
    [trim] removes tab, line feed, vertical tab, form feed, carriage return,
    space and no-break space. *)
Definition isWhiteSpace (c : ascii) : bool :=
  let n := nat_of_ascii c in
  (n =? 9)%nat || (n =? 10)%nat || (n =? 11)%nat || (n =? 12)%nat
  || (n =? 13)%nat || (n =? 32)%nat || (n =? 160)%nat.

Fixpoint trimStart (s : string) : string :=
  match s with
  | EmptyString => EmptyString
  | String c r => if isWhiteSpace c then trimStart r else s
  end.

Fixpoint trimEnd (s : string) : string :=
  match s with
  | EmptyString => EmptyString
  | String c r =>
      match trimEnd r with
      | EmptyString => if isWhiteSpace c then EmptyString else String c EmptyString
      | r' => String c r'
      end
  end.

(** [s.trim()] *)
Definition trim (s : string) : string := trimEnd (trimStart s).

(** [l.join(sep)] *)
Fixpoint join (sep : string) (l : list string) : string :=
  match l with
  | [] => EmptyString
  | [x] => x
  | x :: r => x +:+ sep +:+ join sep r
  end.

(** The value shown in the field (line 639): an absent list shows as the
    empty text. *)
Definition textOfArgs (antigravity_args : option (list string)) : string :=
  match antigravity_args with
  | Some args => join " " args
  | None => EmptyString
  end.

(** The list stored when the field changes (line 642). *)
Definition argsOfText (value : string) : list string :=
  if String.eqb (trim value) "" then []
  else filter (fun arg => arg ≠ "") (trim <$> JS.split " "%char value).

End LaunchArgs.

(** ** [src/components/UpdateNotification.tsx] *)

Module UpdateNotification.

Record UpdateInfo : Type := mkInfo {
  has_update : bool;
  latest_version : string;
  current_version : string;
  download_url : string
}.

(** The state of the component and what it has done: whether the
    [check_for_updates] call of [checkForUpdates] is still pending, how many
    [setTimeout(onClose, 300)] timers are pending, how often [onClose] was
    called, and the URLs given to [window.open]. *)
Record State : Type := mkState {
  updateInfo : option UpdateInfo;
  isVisible : bool;
  checking : bool;
  closeTimers : nat;
  onCloseCalls : nat;
  opened : list string;
  console : list string
}.

(** After mounting: the effect has called [checkForUpdates] (lines 20-26). *)
Definition mounted : State := mkState None false true 0 0 [] [].

(** The component renders its panel unless line 50 returns [null]. *)
Definition rendered (st : State) : bool :=
  match updateInfo st with
  | Some _ => isVisible st
  | None => false
  end.

Definition onClose (st : State) : State :=
  mkState (updateInfo st) (isVisible st) (checking st) (closeTimers st)
    (S (onCloseCalls st)) (opened st) (console st).

(** [checkForUpdates] after its [await] (lines 26-36). *)
Definition checkSettled (r : string + UpdateInfo) (st : State) : State :=
  let st := mkState (updateInfo st) (isVisible st) false (closeTimers st)
              (onCloseCalls st) (opened st) (console st) in
  match r with
  | inr info =>
      if has_update info then
        mkState (Some info) true (checking st) (closeTimers st)
          (onCloseCalls st) (opened st) (console st)
      else onClose st
  | inl _ =>
      onClose (mkState (updateInfo st) (isVisible st) (checking st) (closeTimers st)
                 (onCloseCalls st) (opened st)
                 (console st ++ ["Failed to check for updates:"]))
  end.

(** [handleDownload] (lines 39-43) *)
Definition handleDownload (st : State) : State :=
  match updateInfo st with
  | Some info =>
      if JS.truthy (download_url info) then
        mkState (updateInfo st) (isVisible st) (checking st) (closeTimers st)
          (onCloseCalls st) (opened st ++ [download_url info]) (console st)
      else st
  | None => st
  end.

(** [handleClose] (lines 45-48) *)
Definition handleClose (st : State) : State :=
  mkState (updateInfo st) false (checking st) (S (closeTimers st))
    (onCloseCalls st) (opened st) (console st).

Inductive Event : Type :=
| CheckSettled (result : string + UpdateInfo)
| ClickDownload
| ClickClose
| TimerFires.

(** The two buttons exist only while the panel is rendered; the check
    settles once; a timer fires only if one is pending. *)
Definition step (st : State) (e : Event) : State :=
  match e with
  | CheckSettled r => if checking st then checkSettled r st else st
  | ClickDownload => if rendered st then handleDownload st else st
  | ClickClose => if rendered st then handleClose st else st
  | TimerFires =>
      match closeTimers st with
      | O => st
      | S n =>
          onClose (mkState (updateInfo st) (isVisible st) (checking st) n
                     (onCloseCalls st) (opened st) (console st))
      end
  end.

Definition run (st : State) (es : list Event) : State := foldl step st es.

End UpdateNotification.

(** ** [src/components/proxy/TokenPoolCard.tsx] *)

Module TokenPoolCard.

Record TokenPoolStatus : Type := mkStatus {
  status : string;
  supplier_id : option string;
  enabled : bool
}.

(** The [invoke] commands the card sends. *)
Inductive Call : Type :=
| tokenpool_status
| tokenpool_disconnect
| tokenpool_connect (server_url : string).

Inductive Toast : Type :=
| disconnected_toast
| connected_toast
| error_toast (error : string).

(** A call of [loadStatus] from the effect, or a call of [handleToggle], at
    the [await] it is suspended at. [handleToggle] waits first for its
    command (remembering which one it sent) and then for [loadStatus]. *)
Inductive Task : Type :=
| LoadStatus
| ToggleCommand (disconnecting : bool)
| ToggleReload
| Returned.

Record Card : Type := mkCard {
  cardStatus : TokenPoolStatus;
  loading : bool;
  polling : bool;
  tasks : list Task;
  calls : list Call;
  toasts : list Toast;
  console : list string
}.

(** The initial state (lines 21-26). *)
Definition initial : Card :=
  mkCard (mkStatus "Disconnected" None false) false false [] [] [] [].

(** [config?.token_pool?.server_url || 'ws://127.0.0.1:8046/ws/supplier'] (line 30) *)
Definition serverUrl (config : option AppConfig.t) : string :=
  match config ≫= AppConfig.token_pool with
  | Some tp =>
      if JS.truthy (TokenPoolConfig.server_url tp) then TokenPoolConfig.server_url tp
      else "ws://127.0.0.1:8046/ws/supplier"
  | None => "ws://127.0.0.1:8046/ws/supplier"
  end.

(** [status.status === 'Connected'] (line 69) *)
Definition isConnected (c : Card) : bool :=
  String.eqb (status (cardStatus c)) "Connected".

(** [loadStatus] up to its [await] (line 37), started as task [t]. *)
Definition startLoadStatus (t : Task) (c : Card) : Card :=
  mkCard (cardStatus c) (loading c) (polling c)
    (tasks c ++ [t]) (calls c ++ [tokenpool_status]) (toasts c) (console c).

(** [loadStatus] after its [await] (lines 38-41). *)
Definition loadStatusSettled (r : string + TokenPoolStatus) (c : Card) : Card :=
  match r with
  | inr s =>
      mkCard s (loading c) (polling c) (tasks c) (calls c) (toasts c) (console c)
  | inl _ =>
      mkCard (cardStatus c) (loading c) (polling c) (tasks c) (calls c) (toasts c)
        (console c ++ ["Failed to load TokenPool status:"])
  end.

Definition setLoading (b : bool) (c : Card) : Card :=
  mkCard (cardStatus c) b (polling c) (tasks c) (calls c) (toasts c) (console c).

Definition showToast (t : Toast) (c : Card) : Card :=
  mkCard (cardStatus c) (loading c) (polling c) (tasks c) (calls c)
    (toasts c ++ [t]) (console c).

Definition setTask (i : nat) (t : Task) (c : Card) : Card :=
  mkCard (cardStatus c) (loading c) (polling c) (<[i := t]> (tasks c))
    (calls c) (toasts c) (console c).

(** [handleToggle] up to its first [await] (lines 52-58). *)
Definition handleToggle (config : option AppConfig.t) (c : Card) : Card :=
  let c := setLoading true c in
  if enabled (cardStatus c) then
    mkCard (cardStatus c) (loading c) (polling c)
      (tasks c ++ [ToggleCommand true]) (calls c ++ [tokenpool_disconnect])
      (toasts c) (console c)
  else
    mkCard (cardStatus c) (loading c) (polling c)
      (tasks c ++ [ToggleCommand false])
      (calls c ++ [tokenpool_connect (serverUrl config)])
      (toasts c) (console c).

(** The command of task [i] has settled (lines 55-65): on success the
    toast is shown and [loadStatus] is awaited; on failure the error is shown
    and [loading] is cleared. *)
Definition commandSettled (i : nat) (r : string + unit) (c : Card) : Card :=
  match tasks c !! i with
  | Some (ToggleCommand disconnecting) =>
      match r with
      | inl e => setLoading false (showToast (error_toast e) (setTask i Returned c))
      | inr _ =>
          mkCard (cardStatus c) (loading c) (polling c)
            (<[i := ToggleReload]> (tasks c))
            (calls c ++ [tokenpool_status])
            (toasts c ++ [if disconnecting then disconnected_toast else connected_toast])
            (console c)
      end
  | _ => c
  end.

(** The status query of task [i] has settled: for [loadStatus] called by
    the effect that is all; inside [handleToggle] the [finally] block then
    clears [loading] (lines 61-66). *)
Definition statusSettled (i : nat) (r : string + TokenPoolStatus) (c : Card) : Card :=
  match tasks c !! i with
  | Some LoadStatus => setTask i Returned (loadStatusSettled r c)
  | Some ToggleReload => setLoading false (setTask i Returned (loadStatusSettled r c))
  | _ => c
  end.

Inductive Event : Type :=
| Mount
| Unmount
| Tick
| Click (config : option AppConfig.t)
| CommandSettled (i : nat) (result : string + unit)
| StatusSettled (i : nat) (result : string + TokenPoolStatus).

(** The effect calls [loadStatus] and starts the five-second timer (lines
    44-48); the button is disabled while [loading] (line 106). *)
Definition step (c : Card) (e : Event) : Card :=
  match e with
  | Mount =>
      let c := startLoadStatus LoadStatus c in
      mkCard (cardStatus c) (loading c) true (tasks c) (calls c) (toasts c) (console c)
  | Unmount =>
      mkCard (cardStatus c) (loading c) false (tasks c) (calls c) (toasts c) (console c)
  | Tick => if polling c then startLoadStatus LoadStatus c else c
  | Click config => if loading c then c else handleToggle config c
  | CommandSettled i r => commandSettled i r c
  | StatusSettled i r => statusSettled i r c
  end.

Definition run (c : Card) (es : list Event) : Card := foldl step c es.

End TokenPoolCard.

(** * Properties *)

(** ** Circular distance and trigger times *)

Module TimeProps.

Import TimeText.

(** The circular distance of the specification: the shorter way round a
    ring of 1440 minutes. *)
Definition distance (a b : Z) : Z :=
  Z.min (Z.abs (a - b)) (1440 - Z.abs (a - b)).

Lemma intervalDiff_int (a b : Z) :
  Settings.intervalDiff (Some a) (Some b) =
  Some (if 720 <? Z.abs (a - b) then 1440 - Z.abs (a - b) else Z.abs (a - b)).
Proof.
  unfold Settings.intervalDiff, JS.gt, JS.lt, JS.abs, JS.sub, JS.lift2. simpl.
  destruct (720 <? Z.abs (a - b)); reflexivity.
Qed.

Lemma intervalDiff_distance (a b : Z) :
  Settings.intervalDiff (Some a) (Some b) = Some (distance a b).
Proof.
  rewrite intervalDiff_int. unfold distance. f_equal.
  destruct (Z.ltb_spec 720 (Z.abs (a - b))); lia.
Qed.

Lemma distance_sym (a b : Z) : distance a b = distance b a.
Proof. unfold distance. replace (Z.abs (b - a)) with (Z.abs (a - b)) by lia. reflexivity. Qed.

(** C8. The distance computed by the separation check ([Math.abs] of the
    difference, replaced by its complement to 1440 when above 720) is the
    minimum of the two ways round the ring, for all times of day [a], [b] in
    [0,1439]; it is symmetric; and from 23:50 to 00:10 it is 20 minutes. *)
Theorem intervalDiff_circular (a b : Z) :
  0 <= a <= 1439 -> 0 <= b <= 1439 ->
  Settings.intervalDiff (Some a) (Some b)
    = Some (Z.min (Z.abs (a - b)) (1440 - Z.abs (a - b)))
  /\ Settings.intervalDiff (Some a) (Some b) = Settings.intervalDiff (Some b) (Some a)
  /\ Settings.intervalDiff (minutesOf "23:50") (minutesOf "00:10") = Some 20.
Proof.
  intros _ _. rewrite !intervalDiff_distance. split; [|split].
  - reflexivity.
  - f_equal. apply distance_sym.
  - reflexivity.
Qed.

Lemma intervalDiff_circular_witness :
  Settings.intervalDiff (Some 1430) (Some 10) = Some (Z.min (Z.abs (1430 - 10)) (1440 - Z.abs (1430 - 10)))
  /\ Settings.intervalDiff (Some 1430) (Some 10) = Settings.intervalDiff (Some 10) (Some 1430)
  /\ Settings.intervalDiff (minutesOf "23:50") (minutesOf "00:10") = Some 20.
Proof. apply (intervalDiff_circular 1430 10); lia. Defined.

(** The text ["HH:MM"] of a minute of the day. *)
Definition clock (t : Z) : string :=
  JS.padStart 2 "0"%char (JS.toString (Some (t / 60))) +:+ ":" +:+
  JS.padStart 2 "0"%char (JS.toString (Some (t mod 60))).

Lemma timeParts_empty : timeParts "" = [Some 0].
Proof. reflexivity. Qed.

(** C7. For a peak time whose text reads as hour [h] and minute [m] of a
    day, so for every minute [t = 60 h + m] in [0,1439], both helpers return
    the text of [(t - 300) mod 1440], hence the same text; a peak of 10:00
    gives 05:00 and a peak of 02:00 gives 21:00. *)
Theorem warmup_time_helpers (s : string) (h m : Z) :
  timeParts s !! 0%nat = Some (Some h) ->
  timeParts s !! 1%nat = Some (Some m) ->
  0 <= h < 24 -> 0 <= m < 60 ->
  SmartWarmup.calculateWarmupTime s = clock ((h * 60 + m - 300) mod 1440)
  /\ Settings.getWarmupTime s = Some (clock ((h * 60 + m - 300) mod 1440))
  /\ SmartWarmup.calculateWarmupTime "10:00" = "05:00"
  /\ Settings.getWarmupTime "10:00" = Some "05:00"
  /\ SmartWarmup.calculateWarmupTime "02:00" = "21:00"
  /\ Settings.getWarmupTime "02:00" = Some "21:00".
Proof.
  intros H0 H1 Hh Hm.
  assert (Hmin : minutesOf s = Some (h * 60 + m)).
  { unfold minutesOf, JS.numAt. cbv zeta. rewrite H0, H1. reflexivity. }
  assert (Hne : JS.truthy s = true).
  { destruct s; [rewrite timeParts_empty in H1; discriminate | reflexivity]. }
  split; [|split; [|repeat split; reflexivity]].
  - unfold SmartWarmup.calculateWarmupTime, clock. rewrite Hmin. simpl.
    destruct (Z.leb_spec 300 (h * 60 + m)) as [Hge|Hlt]; simpl.
    + replace ((h * 60 + m - 300) mod 1440) with (h * 60 + m - 300)
        by (symmetry; apply Z.mod_small; lia).
      rewrite Z.rem_mod_nonneg by lia. reflexivity.
    + replace ((h * 60 + m - 300) mod 1440) with (1440 + (h * 60 + m) - 300)
        by (apply Z.mod_unique with (-1); lia).
      rewrite Z.rem_mod_nonneg by lia. reflexivity.
  - unfold Settings.getWarmupTime, clock. rewrite Hne. simpl.
    unfold JS.numAt. cbv zeta. rewrite H0, H1. simpl.
    destruct (Z.ltb_spec (h - 5) 0) as [Hlt|Hge]; simpl.
    + replace ((h * 60 + m - 300) mod 1440) with ((h - 5 + 24) * 60 + m)
        by (apply Z.mod_unique with (-1); lia).
      replace (((h - 5 + 24) * 60 + m) / 60) with (h - 5 + 24)
        by (apply Z.div_unique with m; lia).
      replace (((h - 5 + 24) * 60 + m) mod 60) with m
        by (apply Z.mod_unique with (h - 5 + 24); lia).
      reflexivity.
    + replace ((h * 60 + m - 300) mod 1440) with ((h - 5) * 60 + m)
        by (apply Z.mod_unique with 0; lia).
      replace (((h - 5) * 60 + m) / 60) with (h - 5)
        by (apply Z.div_unique with m; lia).
      replace (((h - 5) * 60 + m) mod 60) with m
        by (apply Z.mod_unique with (h - 5); lia).
      reflexivity.
Qed.

Lemma warmup_time_helpers_witness :
  SmartWarmup.calculateWarmupTime "02:30" = clock ((2 * 60 + 30 - 300) mod 1440)
  /\ Settings.getWarmupTime "02:30" = Some (clock ((2 * 60 + 30 - 300) mod 1440)).
Proof.
  pose proof (warmup_time_helpers "02:30" 2 30) as H.
  destruct H as (H1 & H2 & _); [reflexivity | reflexivity | lia | lia |].
  split; [exact H1 | exact H2].
Defined.

(** Every minute of the day has a text that reads back as its hour and
    minute, so the premises of [warmup_time_helpers] cover all of [0,1439]. *)
Lemma timeParts_clock (t : Z) :
  0 <= t <= 1439 -> timeParts (clock t) = [Some (t / 60); Some (t mod 60)].
Proof.
  intros Ht.
  assert (Hall : Forall (fun n : nat =>
            timeParts (clock (Z.of_nat n))
            = [Some (Z.of_nat n / 60); Some (Z.of_nat n mod 60)]) (seq 0 1440)).
  { apply (bool_decide_eq_true_1 _). vm_compute. reflexivity. }
  rewrite Forall_forall in Hall.
  specialize (Hall (Z.to_nat t)). rewrite Z2Nat.id in Hall by lia.
  apply Hall. apply elem_of_seq. lia.
Qed.

End TimeProps.

(** ** Arrays with holes *)

Module ArrayProps.

Section Slots.
Context {A : Type}.
Implicit Types (l : list (JS.slot A)) (i j : nat) (v : A).

Lemma index_spread l i : JS.index i (JS.spread l) = JS.index i l.
Proof.
  unfold JS.index, JS.spread. rewrite list_lookup_fmap.
  destruct (l !! i) as [[| |a]|]; reflexivity.
Qed.

Lemma length_spread l : length (JS.spread l) = length l.
Proof. unfold JS.spread. apply length_fmap. Qed.

Lemma index_set_index_eq l i v : JS.index i (JS.set_index i v l) = Some v.
Proof.
  unfold JS.index, JS.set_index. destruct (decide (i < length l)%nat) as [Hlt|Hge].
  - rewrite list_lookup_insert_eq by exact Hlt. reflexivity.
  - rewrite lookup_app_r by lia. rewrite lookup_app_r; rewrite length_replicate; [|lia].
    replace (i - length l - (i - length l))%nat with 0%nat by lia. reflexivity.
Qed.

Lemma index_set_index_ne l i j v :
  i ≠ j -> JS.index j (JS.set_index i v l) = JS.index j l.
Proof.
  intros Hne. unfold JS.index, JS.set_index.
  destruct (decide (i < length l)%nat) as [Hlt|Hge].
  - rewrite list_lookup_insert_ne by exact Hne. reflexivity.
  - destruct (decide (j < length l)%nat) as [Hj|Hj].
    + rewrite lookup_app_l by exact Hj. reflexivity.
    + rewrite (lookup_ge_None_2 l j) by lia.
      rewrite lookup_app_r by lia.
      destruct (decide (j - length l < i - length l)%nat) as [Hin|Hout].
      * rewrite lookup_app_l by (rewrite length_replicate; exact Hin).
        rewrite lookup_replicate_2 by exact Hin. reflexivity.
      * rewrite lookup_app_r by (rewrite length_replicate; lia).
        rewrite length_replicate.
        destruct (j - length l - (i - length l))%nat as [|k] eqn:Hk; [lia|].
        reflexivity.
Qed.

Lemma index_Some_lookup l i v : JS.index i l = Some v <-> l !! i = Some (JS.val v).
Proof.
  unfold JS.index. destruct (l !! i) as [[| |a]|]; split; intros H; congruence.
Qed.

End Slots.

End ArrayProps.

(** ** The schedule of the settings page *)

Module ScheduleProps.

Import TimeText Settings ArrayProps TimeProps.

(** A window takes part in the separation check when its time is set and it
    is not switched off. *)
Definition counts (w : TimeRange.t) : Prop :=
  JS.truthy (TimeRange.start w) = true /\ TimeRange.enabled w ≠ Some false.

(** Every two distinct windows that count, and whose times read as minutes
    of the day, are at least 300 minutes apart on the ring. *)
Definition separated (times : schedule) : Prop :=
  forall i j a b x y,
    i ≠ j ->
    JS.index i times = Some a -> JS.index j times = Some b ->
    counts a -> counts b ->
    minutesOf (TimeRange.start a) = Some x ->
    minutesOf (TimeRange.start b) = Some y ->
    300 <= distance x y.

Definition Separated (c : AppConfig.t) : Prop :=
  forall times, defaultOf c = Some times -> separated times.

(** Every entry of every stored schedule has its [end] equal to its [start]. *)
Definition degenerate (times : schedule) : Prop :=
  forall i w, JS.index i times = Some w -> TimeRange.end_ w = TimeRange.start w.

Definition Degenerate (c : AppConfig.t) : Prop :=
  forall m key times,
    schedulesOf c = Some m -> m !! key = Some times -> degenerate times.

(** What the user can do to the warmup schedule on the page. *)
Inductive Mutation : Type :=
| Update (idx : nat) (updates : Updates)
| EnableSwitch (checked : bool).

(** A handler that throws leaves the page as it was. *)
Definition mutate (p : Page) (mu : Mutation) : Page :=
  match mu with
  | Update idx updates => updateTimePoint idx updates p
  | EnableSwitch checked => default p (onEnableChange checked p)
  end.


Lemma intervalError_true idx nm rest : forall i,
  intervalError idx nm i rest = true <->
  exists k other, rest !! k = Some (JS.val other) /\ (i + k)%nat ≠ idx
                  /\ tooClose nm other = true.
Proof.
  induction rest as [|s rest IH]; intros i; simpl.
  - split; [discriminate | intros (k & o & H & _); destruct k; discriminate].
  - assert (Hshift : (exists k other, rest !! k = Some (JS.val other)
                        /\ (S i + k)%nat ≠ idx /\ tooClose nm other = true) ->
                     exists k other, (s :: rest) !! k = Some (JS.val other)
                        /\ (i + k)%nat ≠ idx /\ tooClose nm other = true).
    { intros (k & o & H1 & H2 & H3). exists (S k), o. split; [exact H1|].
      split; [lia | exact H3]. }
    assert (Hback : forall k other, (s :: rest) !! S k = Some (JS.val other) ->
                      (i + S k)%nat ≠ idx -> tooClose nm other = true ->
                      intervalError idx nm (S i) rest = true).
    { intros k o H1 H2 H3. apply IH. exists k, o. split; [exact H1|].
      split; [lia | exact H3]. }
    destruct (decide (i = idx)) as [->|Hne].
    + split; [intros H; apply Hshift, IH, H|].
      intros ([|k] & o & H1 & H2 & H3); [lia | eapply Hback; eauto].
    + destruct s as [| |other].
      * split; [intros H; apply Hshift, IH, H|].
        intros ([|k] & o & H1 & H2 & H3); [discriminate | eapply Hback; eauto].
      * split; [intros H; apply Hshift, IH, H|].
        intros ([|k] & o & H1 & H2 & H3); [discriminate | eapply Hback; eauto].
      * destruct (tooClose nm other) eqn:Hc.
        -- split; [intros _|reflexivity]. exists 0%nat, other.
           split; [reflexivity|]. split; [lia | exact Hc].
        -- split; [intros H; apply Hshift, IH, H|].
           intros ([|k] & o & H1 & H2 & H3); [|eapply Hback; eauto].
           simpl in H1. congruence.
Qed.


Lemma separated_spread times : separated times -> separated (JS.spread times).
Proof.
  intros H i j a b x y Hij Ha Hb. rewrite index_spread in Ha, Hb.
  exact (H i j a b x y Hij Ha Hb).
Qed.

Lemma degenerate_spread times : degenerate times -> degenerate (JS.spread times).
Proof. intros H i w Hw. rewrite index_spread in Hw. exact (H i w Hw). Qed.

Lemma separated_defaultTimes : separated defaultTimes.
Proof.
  intros i j a b x y Hij Ha Hb _ _ Hx Hy.
  destruct i as [|[|[|i]]]; destruct j as [|[|[|j]]];
    try discriminate; try congruence;
    injection Ha as <-; injection Hb as <-;
    vm_compute in Hx, Hy; injection Hx as <-; injection Hy as <-;
    vm_compute; discriminate.
Qed.

Lemma degenerate_defaultTimes : degenerate defaultTimes.
Proof.
  intros i w Hw.
  destruct i as [|[|[|i]]]; try discriminate; injection Hw as <-; reflexivity.
Qed.

Lemma separated_currentTimes c : Separated c -> separated (currentTimes c).
Proof.
  intros H. unfold currentTimes. apply separated_spread.
  destruct (defaultOf c) as [times|] eqn:Hd; simpl.
  - apply H. exact Hd.
  - apply separated_defaultTimes.
Qed.

Lemma schedulesOf_with c sw :
  schedulesOf (AppConfig.with_scheduled_warmup c sw) = ScheduledWarmupConfig.schedules sw.
Proof. reflexivity. Qed.

Lemma defaultOf_updated c e times :
  defaultOf (AppConfig.with_scheduled_warmup c
               (ScheduledWarmupConfig.mk e (Some {[ "default" := times ]}) None None None))
  = Some times.
Proof. unfold defaultOf. rewrite schedulesOf_with. simpl. apply lookup_singleton_eq. Qed.

Lemma defaultOf_currentTimes c times :
  defaultOf c = Some times -> currentTimes c = JS.spread times.
Proof. intros H. unfold currentTimes. rewrite H. reflexivity. Qed.

Lemma degenerate_currentTimes c : Degenerate c -> degenerate (currentTimes c).
Proof.
  intros H. unfold currentTimes. apply degenerate_spread.
  destruct (defaultOf c) as [times|] eqn:Hd; simpl.
  - unfold defaultOf in Hd. destruct (schedulesOf c) as [m|] eqn:Hm; [|discriminate].
    simpl in Hd. exact (H m "default" times Hm Hd).
  - apply degenerate_defaultTimes.
Qed.

(** The two outcomes of [updateTimePoint]. *)
Lemma updateTimePoint_cases idx updates p :
  (exists s, u_start updates = Some s
     /\ intervalError idx (minutesOf s) 0 (currentTimes (formData p)) = true
     /\ updateTimePoint idx updates p
        = showToast "settings.account.scheduled_warmup.interval_error" error p)
  \/ ((forall s, u_start updates = Some s ->
         intervalError idx (minutesOf s) 0 (currentTimes (formData p)) = false)
      /\ toasts (updateTimePoint idx updates p) = toasts p
      /\ defaultOf (formData (updateTimePoint idx updates p))
         = Some (JS.set_index idx
                   (updatedEntry updates (JS.index idx (currentTimes (formData p))))
                   (currentTimes (formData p)))
      /\ schedulesOf (formData (updateTimePoint idx updates p))
         = Some {[ "default" :=
                   JS.set_index idx
                     (updatedEntry updates (JS.index idx (currentTimes (formData p))))
                     (currentTimes (formData p)) ]}).
Proof.
  unfold updateTimePoint. cbv zeta.
  destruct (u_start updates) as [s|] eqn:Hs.
  - destruct (intervalError idx (minutesOf s) 0 (currentTimes (formData p))) eqn:He.
    + left. exists s. repeat split; reflexivity || assumption.
    + right. split; [intros s' [= <-]; exact He|].
      split; [reflexivity|]. split; [apply defaultOf_updated | reflexivity].
  - right. split; [intros s' [=]|].
    split; [reflexivity|]. split; [apply defaultOf_updated | reflexivity].
Qed.



Lemma schedules_withEnabledSchedules c e sch :
  ScheduledWarmupConfig.schedules (withEnabledSchedules c e sch) = sch.
Proof. unfold withEnabledSchedules. destruct (AppConfig.scheduled_warmup c); reflexivity. Qed.

(** What the enable switch stores as schedules. *)
Lemma onEnableChange_schedules checked p p' :
  onEnableChange checked p = Some p' ->
  toasts p' = toasts p
  /\ ((hasExistingSchedules (formData p) = Some true
       /\ schedulesOf (formData p') = schedulesOf (formData p))
      \/ (hasExistingSchedules (formData p) = Some false
          /\ schedulesOf (formData p') = Some defaultSchedules)).
Proof.
  unfold onEnableChange.
  destruct (hasExistingSchedules (formData p)) as [[|]|]; intros [= <-]; simpl;
    rewrite schedulesOf_with, schedules_withEnabledSchedules; auto.
Qed.


Lemma Separated_initial : Separated initialFormData.
Proof.
  intros times Ht. vm_compute in Ht. injection Ht as <-.
  apply separated_defaultTimes.
Qed.

Lemma updateTimePoint_degenerate idx updates p :
  Degenerate (formData p) -> Degenerate (formData (updateTimePoint idx updates p)).
Proof.
  intros Hp.
  destruct (updateTimePoint_cases idx updates p)
    as [(s & _ & _ & ->) | (_ & _ & _ & Hs)]; [exact Hp|].
  intros m key times Hm Hk. rewrite Hs in Hm. injection Hm as <-.
  apply lookup_singleton_Some in Hk as [_ <-].
  pose proof (degenerate_currentTimes _ Hp) as Hdeg.
  intros i w Hw. destruct (decide (i = idx)) as [->|Hi].
  - rewrite index_set_index_eq in Hw. injection Hw as <-.
    destruct updates as [[s|] en]; simpl; [reflexivity|].
    destruct (JS.index idx (currentTimes (formData p))) as [o|] eqn:Ho; simpl.
    + exact (Hdeg idx o Ho).
    + reflexivity.
  - rewrite index_set_index_ne in Hw by auto. exact (Hdeg i w Hw).
Qed.

Lemma mutate_degenerate p mu :
  Degenerate (formData p) -> Degenerate (formData (mutate p mu)).
Proof.
  intros Hp. destruct mu as [idx updates|checked]; simpl.
  - apply updateTimePoint_degenerate, Hp.
  - destruct (onEnableChange checked p) as [p'|] eqn:He; simpl; [|exact Hp].
    apply onEnableChange_schedules in He as [_ [[_ Hs]|[_ Hs]]];
      intros m key times Hm Hk; rewrite Hs in Hm.
    + exact (Hp m key times Hm Hk).
    + injection Hm as <-. unfold defaultSchedules in Hk.
      apply lookup_singleton_Some in Hk as [_ <-]. apply degenerate_defaultTimes.
Qed.

Lemma Degenerate_initial : Degenerate initialFormData.
Proof.
  intros m key times Hm Hk. vm_compute in Hm. injection Hm as <-.
  change (defaultSchedules !! key = Some times) in Hk.
  unfold defaultSchedules in Hk.
  apply lookup_singleton_Some in Hk as [_ <-]. apply degenerate_defaultTimes.
Qed.

End ScheduleProps.

(** ** The schedule of the settings page: main results *)

Module ScheduleTheorems.

Import TimeText Settings ArrayProps TimeProps ScheduleProps.

Definition setTime (idx : nat) (s : string) : Mutation :=
  Update idx (mkUpdates (Some s) None).

Definition setEnabled (idx : nat) (b : bool) : Mutation :=
  Update idx (mkUpdates None (Some b)).

(** C4. When [updateTimePoint] is turned down, which shows as the
    interval-error toast, the form data is what it was before the call. *)
Theorem rejected_update_keeps_state (idx : nat) (updates : Updates) (p : Page) :
  toasts (updateTimePoint idx updates p) ≠ toasts p ->
  formData (updateTimePoint idx updates p) = formData p
  /\ updateTimePoint idx updates p
     = showToast "settings.account.scheduled_warmup.interval_error" error p.
Proof.
  intros Hshown.
  destruct (updateTimePoint_cases idx updates p)
    as [(s & _ & _ & Heq) | (_ & Hsame & _)].
  - rewrite Heq. split; reflexivity.
  - contradiction.
Qed.

Lemma rejected_update_keeps_state_witness :
  formData (updateTimePoint 1 (mkUpdates (Some "10:30") None) initialPage)
  = formData initialPage.
Proof.
  apply (rejected_update_keeps_state 1 (mkUpdates (Some "10:30") None) initialPage).
  vm_compute. discriminate.
Defined.

(** C3, as the code has it. Switching a window on or off runs no
    separation check: the call shows no error, stores the requested flag in
    row [idx] with the start and end that row had (empty texts for a row that
    did not exist), and leaves every other row as it was. *)
Theorem enabled_toggle_is_unchecked (idx : nat) (b : bool) (p : Page) :
  let p' := updateTimePoint idx (mkUpdates None (Some b)) p in
  let old := JS.index idx (currentTimes (formData p)) in
  toasts p' = toasts p
  /\ JS.index idx (currentTimes (formData p'))
     = Some (TimeRange.mk (default "" (TimeRange.start <$> old))
                          (default "" (TimeRange.end_ <$> old)) (Some b))
  /\ forall j, j ≠ idx ->
       JS.index j (currentTimes (formData p')) = JS.index j (currentTimes (formData p)).
Proof.
  cbv zeta.
  destruct (updateTimePoint_cases idx (mkUpdates None (Some b)) p)
    as [(s & Hs & _) | (_ & Ht & Hd & _)]; [discriminate|].
  split; [exact Ht|].
  rewrite (defaultOf_currentTimes _ _ Hd). split.
  - rewrite index_spread, index_set_index_eq. reflexivity.
  - intros j Hj. rewrite index_spread, index_set_index_ne by auto. reflexivity.
Qed.

Lemma enabled_toggle_is_unchecked_witness :
  JS.index 1 (currentTimes (formData (updateTimePoint 0 (mkUpdates None (Some false)) initialPage)))
  = JS.index 1 (currentTimes (formData initialPage)).
Proof.
  apply (enabled_toggle_is_unchecked 0 false initialPage). lia.
Defined.

(** The page after switching the first window off and moving the second to
    10:30, both accepted. *)
Definition clashPage : Page :=
  foldl mutate initialPage [setEnabled 0 false; setTime 1 "10:30"].

(** C3 as stated fails: on [clashPage] the first window (10:00, off) is 30
    minutes from the second (10:30, on), yet switching it on is accepted:
    no error is shown and the stored schedule changes to hold both. *)
Lemma enabling_skips_the_check :
  let p' := updateTimePoint 0 (mkUpdates None (Some true)) clashPage in
  defaultOf (formData clashPage)
  = Some [ JS.val (TimeRange.mk "10:00" "10:00" (Some false));
           JS.val (TimeRange.mk "10:30" "10:30" (Some true));
           JS.val (TimeRange.mk "21:00" "21:00" (Some true)) ]
  /\ intervalDiff (minutesOf "10:00") (minutesOf "10:30") = Some 30
  /\ toasts p' = []
  /\ formData p' ≠ formData clashPage
  /\ defaultOf (formData p')
     = Some [ JS.val (TimeRange.mk "10:00" "10:00" (Some true));
              JS.val (TimeRange.mk "10:30" "10:30" (Some true));
              JS.val (TimeRange.mk "21:00" "21:00" (Some true)) ].
Proof.
  cbv zeta. split; [vm_compute; reflexivity|]. split; [reflexivity|].
  split; [reflexivity|]. split; [|vm_compute; reflexivity].
  intros H. apply (f_equal defaultOf) in H. vm_compute in H. discriminate.
Qed.




(** C10. The initial form data and the defaults of the enable switch have
    [end] equal to [start] in every entry; every mutation of the page keeps
    that; hence it holds after any sequence of mutations of the initial
    page. *)
Theorem end_equals_start :
  Degenerate initialFormData
  /\ degenerate defaultTimes
  /\ (forall p mu, Degenerate (formData p) -> Degenerate (formData (mutate p mu)))
  /\ (forall ms, Degenerate (formData (foldl mutate initialPage ms))).
Proof.
  split; [exact Degenerate_initial|]. split; [exact degenerate_defaultTimes|].
  split; [intros p mu; apply mutate_degenerate|].
  intros ms. assert (Hgen : forall p, Degenerate (formData p) ->
                              Degenerate (formData (foldl mutate p ms))).
  { induction ms as [|mu ms IH]; intros p Hp; simpl; [exact Hp|].
    apply IH, mutate_degenerate, Hp. }
  apply Hgen. exact Degenerate_initial.
Qed.

Lemma end_equals_start_witness :
  Degenerate (formData (mutate initialPage (setTime 0 "09:00"))).
Proof.
  destruct end_equals_start as (Hinit & _ & Hstep & _).
  apply Hstep. exact Hinit.
Defined.

End ScheduleTheorems.

(** ** The warmup card *)

Module WarmupCardProps.

Import SmartWarmup ArrayProps.

(** [config.monitored_models || []] *)
Definition models (c : config) : list string :=
  default [] (ScheduledWarmupConfig.monitored_models c).

(** An array without holes, as every array read from the stored
    configuration is. *)
Definition dense {A} (l : list (JS.slot A)) : Prop :=
  Forall (fun s => s ≠ JS.hole) l.

(** Between one and six peak hours, at least one monitored model, and no
    model listed twice. *)
Definition Inv (c : config) : Prop :=
  dense (peakHours c)
  /\ (1 <= length (peakHours c) <= 6)%nat
  /\ models c ≠ []
  /\ NoDup (models c).

(** What the user can do on the card. *)
Inductive Action : Type :=
| SetEnabled (enabled : bool)
| ToggleModel (model : string)
| SetMode (mode : WarmupMode)
| SetPeakHour (index : nat) (value : string)
| AddPeakHour
| RemovePeakHour (index : nat).

Definition act (a : Action) : config -> config :=
  applied match a with
          | SetEnabled enabled => handleEnabledChange enabled
          | ToggleModel model => toggleModel model
          | SetMode mode => handleModeChange mode
          | SetPeakHour index value => handlePeakHourChange index value
          | AddPeakHour => addPeakHour
          | RemovePeakHour index => removePeakHour index
          end.

(** The time inputs are rendered one per peak hour, so the index of an edit
    is that of an existing row. *)
Definition offered (a : Action) (c : config) : Prop :=
  match a with
  | SetPeakHour index _ => (index < length (peakHours c))%nat
  | _ => True
  end.

Lemma dense_spread {A} (l : list (JS.slot A)) : dense (JS.spread l).
Proof.
  unfold dense, JS.spread. apply Forall_fmap, Forall_forall.
  intros [| |a] _; simpl; discriminate.
Qed.

Lemma filterOtherIndex_dense {A} index (l : list (JS.slot A)) : forall i,
  dense (filterOtherIndex index i l).
Proof.
  induction l as [|s l IH]; intros i; simpl; [constructor|].
  destruct s as [| |a]; [apply IH | |];
    (destruct (decide (i = index)); [apply IH | constructor; [discriminate | apply IH]]).
Qed.

Lemma filterOtherIndex_past {A} index (l : list (JS.slot A)) : forall i,
  (index < i)%nat -> dense l -> filterOtherIndex index i l = l.
Proof.
  induction l as [|s l IH]; intros i Hi Hd; simpl; [reflexivity|].
  inversion Hd as [|? ? Hs Hl]; subst.
  destruct s as [| |a]; [congruence | |];
    (destruct (decide (i = index)); [lia | rewrite IH by (lia || assumption); reflexivity]).
Qed.

Lemma filterOtherIndex_length {A} index (l : list (JS.slot A)) : forall i,
  dense l ->
  (length l - 1 <= length (filterOtherIndex index i l) <= length l)%nat.
Proof.
  induction l as [|s l IH]; intros i Hd; simpl; [lia|].
  inversion Hd as [|? ? Hs Hl]; subst. specialize (IH (S i) Hl).
  destruct s as [| |a]; [congruence | |];
    (destruct (decide (i = index)) as [->|Hne];
     [rewrite filterOtherIndex_past by (lia || assumption); lia | simpl; lia]).
Qed.

Lemma models_with_peak_hours c hs : models (with_peak_hours c hs) = models c.
Proof. reflexivity. Qed.

Lemma peakHours_with_peak_hours c hs : peakHours (with_peak_hours c hs) = hs.
Proof. reflexivity. Qed.

Lemma toggleModel_keeps_one (model : string) (l : list string) :
  NoDup l -> (2 <= length l)%nat -> filter (fun m => m ≠ model) l ≠ [].
Proof.
  intros Hnd Hlen. destruct l as [|a [|b r]]; simpl in Hlen; try lia.
  assert (Hab : a ≠ b).
  { apply NoDup_cons in Hnd as [Hnotin _]. intros ->. apply Hnotin. left. }
  destruct (decide (a = model)) as [->|Ha].
  - assert (Hin : b ∈ filter (fun m => m ≠ model) (model :: b :: r)).
    { apply list_elem_of_filter. split; [congruence | right; left]. }
    intros Hnil. rewrite Hnil in Hin. inversion Hin.
  - assert (Hin : a ∈ filter (fun m => m ≠ model) (a :: b :: r)).
    { apply list_elem_of_filter. split; [exact Ha | left]. }
    intros Hnil. rewrite Hnil in Hin. inversion Hin.
Qed.

Lemma peakHours_with_monitored_models c ms :
  peakHours (with_monitored_models c ms) = peakHours c.
Proof. reflexivity. Qed.

Lemma models_with_monitored_models c ms : models (with_monitored_models c ms) = ms.
Proof. reflexivity. Qed.

Lemma Inv_same c c' :
  peakHours c' = peakHours c -> models c' = models c -> Inv c -> Inv c'.
Proof. unfold Inv. intros -> ->. auto. Qed.

Lemma handleEnabledChange_Inv enabled c :
  Inv c -> Inv (applied (handleEnabledChange enabled) c).
Proof.
  intros HI. pose proof HI as (_ & Hlen & Hne & _).
  apply (Inv_same c); [| |exact HI];
    unfold applied, handleEnabledChange, models, peakHours in *; cbv zeta;
    destruct c as [e sch [[|m ms]|] ph wm]; simpl in *; try congruence;
    rewrite andb_false_r;
    destruct ph as [[|h hs]|]; simpl in *; try lia; destruct wm; reflexivity.
Qed.

Lemma toggleModel_Inv model c : Inv c -> Inv (applied (toggleModel model) c).
Proof.
  intros HI. pose proof HI as (Hd & Hlen & Hne & Hnd).
  unfold applied, toggleModel. cbv zeta. fold (models c).
  destruct (bool_decide (model ∈ models c)) eqn:Hin.
  - destruct (Nat.leb_spec (length (models c)) 1) as [Hle|Hgt]; simpl; [exact HI|].
    unfold Inv. rewrite peakHours_with_monitored_models, models_with_monitored_models.
    split; [exact Hd|]. split; [exact Hlen|]. split.
    + apply toggleModel_keeps_one; [exact Hnd | lia].
    + apply NoDup_filter, Hnd.
  - apply bool_decide_eq_false in Hin. simpl.
    unfold Inv. rewrite peakHours_with_monitored_models, models_with_monitored_models.
    split; [exact Hd|]. split; [exact Hlen|]. split.
    + intros Hnil. apply app_eq_nil in Hnil as [_ Hnil]. discriminate.
    + apply NoDup_app. split; [exact Hnd|]. split; [|apply NoDup_singleton].
      intros x Hx Hx'. apply list_elem_of_singleton in Hx'. subst. contradiction.
Qed.

Lemma peak_hours_Inv c hs :
  Inv c -> dense hs -> (1 <= length hs <= 6)%nat -> Inv (with_peak_hours c hs).
Proof.
  intros (_ & _ & Hne & Hnd) Hd Hlen. unfold Inv.
  rewrite peakHours_with_peak_hours, models_with_peak_hours. auto.
Qed.

Lemma act_Inv a c : Inv c -> offered a c -> Inv (act a c).
Proof.
  intros HI Hoff. pose proof HI as (Hd & Hlen & _).
  destruct a as [enabled|model|mode|index value| |index]; unfold act.
  - apply handleEnabledChange_Inv, HI.
  - apply toggleModel_Inv, HI.
  - apply (Inv_same c); [reflexivity | reflexivity | exact HI].
  - simpl in Hoff. unfold applied, handlePeakHourChange. cbv zeta. simpl.
    apply peak_hours_Inv; [exact HI | |]; unfold JS.set_index;
      rewrite length_spread;
      (destruct (decide (index < length (peakHours c))%nat) as [_|Hge]; [|lia]).
    + apply Forall_insert; [apply dense_spread | discriminate].
    + rewrite length_insert, length_spread. exact Hlen.
  - unfold applied, addPeakHour.
    destruct (Nat.leb_spec 6 (length (peakHours c))) as [Hfull|Hroom]; simpl; [exact HI|].
    apply peak_hours_Inv; [exact HI | |].
    + apply Forall_app. split; [apply dense_spread|].
      constructor; [discriminate | constructor].
    + rewrite length_app, length_spread. simpl. lia.
  - unfold applied, removePeakHour.
    destruct (Nat.leb_spec (length (peakHours c)) 1) as [Hlast|Hmore]; simpl; [exact HI|].
    apply peak_hours_Inv; [exact HI | apply filterOtherIndex_dense |].
    pose proof (filterOtherIndex_length index (peakHours c) 0 Hd). lia.
Qed.

End WarmupCardProps.

(** ** The warmup card and the enable switch: main results *)

Module WarmupTheorems.

Import SmartWarmup WarmupCardProps Settings ScheduleProps.

(** A configuration with three peak hours and two monitored models. *)
Definition sampleConfig : config :=
  ScheduledWarmupConfig.mk true None
    (Some ["gemini-3-flash"; "claude-sonnet-4-5"])
    (Some defaultPeakHours) (Some peak_based).

Lemma Inv_sampleConfig : Inv sampleConfig.
Proof.
  unfold Inv. split; [repeat constructor; discriminate|].
  split; [simpl; lia|]. split; [discriminate|].
  apply (bool_decide_unpack _). vm_compute. exact I.
Qed.

(** C9. Every action offered by the card keeps the number of peak hours
    within [1,6] and the monitored models non-empty; adding a seventh peak
    hour, removing the only peak hour and deselecting the only monitored
    model leave the configuration exactly as it was. *)
Theorem card_bounds (c : config) :
  (forall a, Inv c -> offered a c -> Inv (act a c))
  /\ ((6 <= length (peakHours c))%nat ->
      addPeakHour c = None /\ act AddPeakHour c = c)
  /\ (forall index, (length (peakHours c) <= 1)%nat ->
      removePeakHour index c = None /\ act (RemovePeakHour index) c = c)
  /\ (forall model, models c = [model] ->
      toggleModel model c = None /\ act (ToggleModel model) c = c).
Proof.
  split; [intros a; apply act_Inv|]. split; [|split].
  - intros Hfull. unfold act, applied, addPeakHour.
    destruct (Nat.leb_spec 6 (length (peakHours c))); [split; reflexivity | lia].
  - intros index Hlast. unfold act, applied, removePeakHour.
    destruct (Nat.leb_spec (length (peakHours c)) 1); [split; reflexivity | lia].
  - intros model Hone. unfold act, applied, toggleModel. cbv zeta.
    fold (models c). rewrite Hone.
    rewrite bool_decide_eq_true_2 by (apply list_elem_of_singleton; reflexivity).
    simpl. split; reflexivity.
Qed.

Lemma card_bounds_witness :
  Inv (act (RemovePeakHour 1) sampleConfig)
  /\ act (ToggleModel "gemini-3-flash")
       (ScheduledWarmupConfig.mk true None (Some ["gemini-3-flash"]) None None)
     = ScheduledWarmupConfig.mk true None (Some ["gemini-3-flash"]) None None.
Proof.
  split.
  - destruct (card_bounds sampleConfig) as (Hinv & _).
    apply Hinv; [exact Inv_sampleConfig | exact I].
  - destruct (card_bounds
                (ScheduledWarmupConfig.mk true None (Some ["gemini-3-flash"]) None None))
      as (_ & _ & _ & Hmodel).
    apply (Hmodel "gemini-3-flash"). reflexivity.
Defined.

(** A stored schedule in which no window has a time: every element is a
    hole or an entry whose start is the empty text. *)
Definition noTimeSet (times : schedule) : Prop :=
  Forall (fun s => match s with
                   | JS.val w => TimeRange.start w = ""
                   | JS.hole => True
                   | JS.undef => False
                   end) times.

Lemma some_noTimeSet times :
  noTimeSet times -> JS.some (fun s => JS.truthy (TimeRange.start s)) times = Some false.
Proof.
  induction 1 as [|s times Hs _ IH]; simpl; [reflexivity|].
  destruct s as [| |w]; [exact IH | contradiction |]. rewrite Hs. exact IH.
Qed.

Lemma hasExistingSchedules_unset c :
  defaultOf c = None \/ (exists times, defaultOf c = Some times /\ noTimeSet times) ->
  hasExistingSchedules c = Some false.
Proof.
  unfold defaultOf, hasExistingSchedules.
  destruct (schedulesOf c) as [m|]; simpl; [|reflexivity].
  intros [Hnone | (times & Hsome & Hunset)].
  - rewrite Hnone. reflexivity.
  - rewrite Hsome. destruct (0 <? length times)%nat; [|reflexivity].
    apply some_noTimeSet, Hunset.
Qed.

(** [c.scheduled_warmup?.monitored_models] *)
Definition monitoredOf (c : AppConfig.t) : option (list string) :=
  AppConfig.scheduled_warmup c ≫= ScheduledWarmupConfig.monitored_models.

(** C6, as the code has it. On the warmup card, enabling fills an absent or
    empty list of monitored models with the four catalog ids and an absent
    or empty list of peak hours with 10:00, 15:00 and 20:00, and changes
    neither when it is populated. On the settings page, the enable switch
    stores the windows 10:00, 15:00 and 21:00 when no schedule is stored or
    none of its windows has a time, keeps the stored schedules when one has,
    and never touches the monitored models. *)
Theorem enabling_defaults (c : config) (checked : bool) (p : Page) :
  (exists c', handleEnabledChange true c = Some c'
     /\ ScheduledWarmupConfig.enabled c' = true
     /\ ScheduledWarmupConfig.monitored_models c'
        = (if missingOrEmpty (ScheduledWarmupConfig.monitored_models c)
           then Some warmupModelsOptions
           else ScheduledWarmupConfig.monitored_models c)
     /\ ScheduledWarmupConfig.peak_hours c'
        = (if missingOrEmpty (ScheduledWarmupConfig.peak_hours c)
           then Some [JS.val "10:00"; JS.val "15:00"; JS.val "20:00"]
           else ScheduledWarmupConfig.peak_hours c))
  /\ length warmupModelsOptions = 4%nat
  /\ (defaultOf (formData p) = None
      \/ (exists times, defaultOf (formData p) = Some times /\ noTimeSet times) ->
      exists p', onEnableChange checked p = Some p'
        /\ schedulesOf (formData p')
           = Some {[ "default" :=
                     [ JS.val (TimeRange.mk "10:00" "10:00" (Some true));
                       JS.val (TimeRange.mk "15:00" "15:00" (Some true));
                       JS.val (TimeRange.mk "21:00" "21:00" (Some true)) ] ]}
        /\ monitoredOf (formData p') = monitoredOf (formData p))
  /\ (hasExistingSchedules (formData p) = Some true ->
      exists p', onEnableChange checked p = Some p'
        /\ schedulesOf (formData p') = schedulesOf (formData p)
        /\ monitoredOf (formData p') = monitoredOf (formData p)).
Proof.
  split; [|split; [reflexivity|split]].
  - eexists. split; [reflexivity|]. unfold handleEnabledChange. cbv zeta.
    destruct c as [e sch ms ph wm]; simpl.
    destruct (missingOrEmpty ms); simpl; destruct (missingOrEmpty ph); simpl;
      destruct wm; simpl; auto.
  - intros Hunset. apply hasExistingSchedules_unset in Hunset.
    unfold onEnableChange. rewrite Hunset. eexists. split; [reflexivity|]. simpl.
    rewrite schedulesOf_with, schedules_withEnabledSchedules.
    split; [reflexivity|].
    unfold monitoredOf, withEnabledSchedules. simpl.
    destruct (AppConfig.scheduled_warmup (formData p)); reflexivity.
  - intros Hhas. unfold onEnableChange. rewrite Hhas.
    eexists. split; [reflexivity|]. simpl.
    rewrite schedulesOf_with, schedules_withEnabledSchedules.
    split; [reflexivity|].
    unfold monitoredOf, withEnabledSchedules. simpl.
    destruct (AppConfig.scheduled_warmup (formData p)); reflexivity.
Qed.

(** Form data in which the warmup block was never written. *)
Definition bareFormData : AppConfig.t :=
  AppConfig.mk "zh" "system" false 15 false 5 None
    (ProxyConfig.mk false 8080 "" false 120 false false "") None.

Lemma enabling_defaults_witness :
  exists p', onEnableChange true (mkPage bareFormData []) = Some p'
    /\ schedulesOf (formData p') = Some defaultSchedules
    /\ monitoredOf (formData p') = monitoredOf bareFormData.
Proof.
  destruct (enabling_defaults sampleConfig true (mkPage bareFormData []))
    as (_ & _ & Hunset & _).
  apply Hunset. left. reflexivity.
Defined.

(** C6 as stated fails on the warmup card: enabling a configuration without
    peak hours stores 10:00, 15:00 and 20:00, and the third is not 21:00. *)
Lemma card_default_is_not_2100 :
  ScheduledWarmupConfig.peak_hours
    <$> handleEnabledChange true (ScheduledWarmupConfig.mk false None None None None)
  = Some (Some [JS.val "10:00"; JS.val "15:00"; JS.val "20:00"])
  /\ ScheduledWarmupConfig.peak_hours
       <$> handleEnabledChange true (ScheduledWarmupConfig.mk false None None None None)
     ≠ Some (Some [JS.val "10:00"; JS.val "15:00"; JS.val "21:00"]).
Proof. split; [reflexivity | discriminate]. Qed.

(** The card adds and edits peak hours without any separation check: on
    the default peak hours, adding one stores 12:00 next to 10:00. *)
Lemma card_adds_unchecked :
  peakHours (act AddPeakHour (ScheduledWarmupConfig.mk true None None None None))
  = [JS.val "10:00"; JS.val "15:00"; JS.val "20:00"; JS.val "12:00"]
  /\ Settings.intervalDiff (TimeText.minutesOf "10:00") (TimeText.minutesOf "12:00")
     = Some 120.
Proof. split; reflexivity. Qed.

End WarmupTheorems.

(** ** The connection watchdog: main results *)

Module WatchdogTheorems.

Import TokenPool.




(** A configuration with auto-connect on and the given server URL. *)
Definition autoConfig (url : string) : AppConfig.t :=
  AppConfig.mk "zh" "system" false 15 false 5 None
    (ProxyConfig.mk false 8080 "" false 120 false false "")
    (Some (TokenPoolConfig.mk true url)).

(** The timer started by a run of the effect fires [checkAndConnect] with
    the configuration of that run. *)
Lemma effect_starts_timer (h : Hook) (config : AppConfig.t) :
  autoConnect (Some config) = true ->
  retryInterval (step h (EffectRun (Some config))) = Some config.
Proof.
  intros Hauto. simpl. unfold effect. rewrite Hauto.
  unfold checkAndConnect. simpl. destruct (isConnecting h); reflexivity.
Qed.

(** While the flag is set, neither a tick nor the initial check of a new
    run of the effect sends anything. *)
Lemma guard_blocks_when_set (h : Hook) (config : option AppConfig.t) :
  isConnecting h = true ->
  calls (step h Tick) = calls h /\ calls (step h (EffectRun config)) = calls h.
Proof.
  intros Hset. split; simpl.
  - destruct (retryInterval h); [|reflexivity].
    unfold checkAndConnect. rewrite Hset. reflexivity.
  - unfold effect. destruct config as [c|]; [|reflexivity].
    destruct (autoConnect (Some c)); [|reflexivity].
    unfold checkAndConnect. simpl. rewrite Hset. reflexivity.
Qed.












(** C1 fails on the code. The flag is read at line 23 and set at line 31,
    after the status query: a second call of [checkAndConnect] that starts
    while the first waits for its status passes the guard too. Both when the
    effect runs again (the server URL changed) and when the timer fires
    during the query, two replies of [Disconnected] put two connect calls in
    flight at once. *)
Theorem two_connects_in_flight :
  let h := run mounting
             [ EffectRun (Some (autoConfig "ws://a"));
               EffectRun (Some (autoConfig "ws://b"));
               StatusSettled 0 (inr "Disconnected");
               StatusSettled 1 (inr "Disconnected") ] in
  let h' := run mounting
             [ EffectRun (Some (autoConfig "ws://a"));
               Tick;
               StatusSettled 0 (inr "Disconnected");
               StatusSettled 1 (inr "Disconnected") ] in
  connectsInFlight h = 2%nat
  /\ calls h = [ tokenpool_status; tokenpool_status;
                 tokenpool_connect "ws://a"; tokenpool_connect "ws://b" ]
  /\ connectsInFlight h' = 2%nat
  /\ calls h' = [ tokenpool_status; tokenpool_status;
                  tokenpool_connect "ws://a"; tokenpool_connect "ws://a" ].
Proof. cbv zeta. repeat split; reflexivity. Qed.

End WatchdogTheorems.

(** ** The connection watchdog: what holds on every run *)

Module WatchdogInvariants.

Import TokenPool.

Definition awaitingStatus (t : Task) : bool :=
  match t with AwaitingStatus _ => true | _ => false end.

Section Counting.
Context {A : Type} (f : A -> bool).

Definition tally (l : list A) : nat := length (filter (fun x => f x = true) l).

Lemma tally_cons x l : tally (x :: l) = ((if f x then 1 else 0) + tally l)%nat.
Proof.
  unfold tally. destruct (f x) eqn:H.
  - rewrite filter_cons_True by exact H. reflexivity.
  - rewrite filter_cons_False by congruence. reflexivity.
Qed.

Lemma tally_app l1 l2 : tally (l1 ++ l2) = (tally l1 + tally l2)%nat.
Proof. unfold tally. rewrite filter_app, length_app. reflexivity. Qed.

(** Overwriting slot [i] swaps the contribution of the old element for that
    of the new one. *)
Lemma tally_insert l i x y :
  l !! i = Some x ->
  (tally (<[i := y]> l) + (if f x then 1 else 0)
   = tally l + (if f y then 1 else 0))%nat.
Proof.
  revert i. induction l as [|a l IH]; intros [|i] H; simpl in H; try discriminate.
  - injection H as ->. simpl. rewrite !tally_cons. lia.
  - simpl. rewrite !tally_cons. specialize (IH i H). lia.
Qed.

End Counting.

Lemma tally_nil {A} (f : A -> bool) : tally f [] = 0%nat.
Proof. reflexivity. Qed.

(** The status queries that have been sent and have not settled. *)
Definition statusPending (h : Hook) : nat := tally awaitingStatus (tasks h).

Definition isConnectCall (c : Call) : bool :=
  match c with tokenpool_connect _ => true | _ => false end.

Definition isStatusCall (c : Call) : bool :=
  match c with tokenpool_status => true | _ => false end.

Definition connectCalls (h : Hook) : nat := tally isConnectCall (calls h).

Definition statusCalls (h : Hook) : nat := tally isStatusCall (calls h).

(** A run in which no call of [checkAndConnect] starts while a status query
    is pending: every tick and every run of the effect finds the previous
    query settled. *)
Fixpoint sequenced (h : Hook) (es : list Event) : bool :=
  match es with
  | [] => true
  | e :: es' =>
      match e with
      | Tick | EffectRun _ => (statusPending h =? 0)%nat
      | _ => true
      end && sequenced (step h e) es'
  end.


Lemma connectsInFlight_tally h : connectsInFlight h = tally awaitingConnect (tasks h).
Proof. reflexivity. Qed.

(** How one event moves the flag and the two counts of pending calls. *)
Lemma step_counts (h : Hook) (e : Event) :
  let h' := step h e in
  (* nothing happened to the tasks and the flag *)
  (statusPending h' = statusPending h /\ connectsInFlight h' = connectsInFlight h
   /\ isConnecting h' = isConnecting h /\ connectCalls h' = connectCalls h
   /\ statusCalls h' = statusCalls h)
  (* a status query went out *)
  \/ ((exists c, e = Tick \/ e = EffectRun c) /\ isConnecting h = false
      /\ statusPending h' = S (statusPending h)
      /\ connectsInFlight h' = connectsInFlight h
      /\ isConnecting h' = false /\ connectCalls h' = connectCalls h
      /\ statusCalls h' = S (statusCalls h))
  (* a status query settled without a connect call *)
  \/ (S (statusPending h') = statusPending h
      /\ connectsInFlight h' = connectsInFlight h
      /\ isConnecting h' = isConnecting h /\ connectCalls h' = connectCalls h
      /\ statusCalls h' = statusCalls h)
  (* a status query settled and the connect call went out *)
  \/ (S (statusPending h') = statusPending h
      /\ connectsInFlight h' = S (connectsInFlight h)
      /\ isConnecting h' = true /\ connectCalls h' = S (connectCalls h)
      /\ statusCalls h' = statusCalls h)
  (* a connect call settled *)
  \/ (statusPending h' = statusPending h
      /\ S (connectsInFlight h') = connectsInFlight h
      /\ isConnecting h' = false /\ connectCalls h' = connectCalls h
      /\ statusCalls h' = statusCalls h).
Proof.
  cbv zeta. unfold statusPending, connectCalls, statusCalls.
  rewrite !connectsInFlight_tally.
  assert (Hcheck : forall c g,
            isConnecting g = isConnecting h -> tasks g = tasks h -> calls g = calls h ->
            (tasks (checkAndConnect c g) = tasks h
             /\ calls (checkAndConnect c g) = calls h
             /\ isConnecting (checkAndConnect c g) = isConnecting h)
            \/ (isConnecting h = false /\ isConnecting (checkAndConnect c g) = false
                /\ tasks (checkAndConnect c g) = (tasks h ++ [AwaitingStatus c])%list
                /\ calls (checkAndConnect c g) = (calls h ++ [tokenpool_status])%list)).
  { intros c g Hf Ht Hc. unfold checkAndConnect.
    destruct (isConnecting g) eqn:Hg; simpl.
    - left. repeat split; congruence.
    - right. repeat split; congruence. }
  destruct e as [config| | |i r|i ok]; simpl.
  - unfold effect. destruct config as [c|]; [|left; repeat split; reflexivity].
    destruct (autoConnect (Some c)); [|left; repeat split; reflexivity].
    simpl.
    destruct (Hcheck c (clearRetryInterval h))
      as [(Ht & Hc & Hf)|(Hh & Hf & Ht & Hc)]; try reflexivity.
    + left. rewrite Ht, Hc, Hf. repeat split; reflexivity.
    + right. left. rewrite Ht, Hc, Hf, !tally_app, !tally_cons, !tally_nil. simpl.
      split; [exists (Some c); right; reflexivity|]. repeat split; auto; lia.
  - left. repeat split; reflexivity.
  - destruct (retryInterval h) as [c|]; [|left; repeat split; reflexivity].
    destruct (Hcheck c h) as [(Ht & Hc & Hf)|(Hh & Hf & Ht & Hc)]; try reflexivity.
    + left. rewrite Ht, Hc, Hf. repeat split; reflexivity.
    + right. left. rewrite Ht, Hc, Hf, !tally_app, !tally_cons, !tally_nil. simpl.
      split; [exists None; left; reflexivity|]. repeat split; auto; lia.
  - unfold statusSettled.
    destruct (tasks h !! i) as [[c| |]|] eqn:Hi;
      try solve [left; repeat split; reflexivity].
    pose proof (tally_insert awaitingStatus (tasks h) i _ Returned Hi) as HsR.
    pose proof (tally_insert awaitingConnect (tasks h) i _ Returned Hi) as HcR.
    pose proof (tally_insert awaitingStatus (tasks h) i _ AwaitingConnect Hi) as HsC.
    pose proof (tally_insert awaitingConnect (tasks h) i _ AwaitingConnect Hi) as HcC.
    simpl in HsR, HcR, HsC, HcC.
    destruct r as [err|status]; [|destruct (needsConnect status)]; simpl.
    + right. right. left. repeat split; try reflexivity; lia.
    + right. right. right. left.
      rewrite !tally_app, !tally_cons, !tally_nil. simpl.
      repeat split; try reflexivity; lia.
    + right. right. left. repeat split; try reflexivity; lia.
  - unfold connectSettled.
    destruct (tasks h !! i) as [[c| |]|] eqn:Hi;
      try solve [left; repeat split; reflexivity].
    pose proof (tally_insert awaitingStatus (tasks h) i _ Returned Hi) as HsR.
    pose proof (tally_insert awaitingConnect (tasks h) i _ Returned Hi) as HcR.
    simpl in HsR, HcR. simpl.
    right. right. right. right. repeat split; try reflexivity; lia.
Qed.

Lemma run_app h es es' : run h (es ++ es') = run (run h es) es'.
Proof. unfold run. apply foldl_app. Qed.

Lemma sequenced_app h es es' :
  sequenced h (es ++ es') = sequenced h es && sequenced (run h es) es'.
Proof.
  revert h. induction es as [|e es IH]; intros h; simpl; [reflexivity|].
  rewrite IH. fold (run (step h e) es). rewrite andb_assoc. reflexivity.
Qed.

(** X1. On every run from mounting, a set flag means a connect call is
    pending: the flag cannot stay set with nothing left to clear it. *)
Theorem flag_means_connect_pending (es : list Event) :
  isConnecting (run mounting es) = true ->
  (1 <= connectsInFlight (run mounting es))%nat.
Proof.
  induction es as [|e es IH] using rev_ind; [discriminate|].
  rewrite run_app. simpl. intros Hflag.
  destruct (step_counts (run mounting es) e)
    as [(_ & Hc & Hf & _)|[(_ & _ & _ & _ & Hf & _)|[(_ & Hc & Hf & _)
       |[(_ & Hc & _)|(_ & _ & Hf & _)]]]]; try congruence; try lia.
  - rewrite Hc. apply IH. congruence.
  - rewrite Hc. apply IH. congruence.
Qed.

Lemma flag_means_connect_pending_witness :
  (1 <= connectsInFlight
          (run mounting [EffectRun (Some (WatchdogTheorems.autoConfig "ws://pool"));
                         StatusSettled 0 (inr "Disconnected")]))%nat.
Proof.
  apply (flag_means_connect_pending
           [EffectRun (Some (WatchdogTheorems.autoConfig "ws://pool"));
            StatusSettled 0 (inr "Disconnected")]).
  reflexivity.
Defined.

(** X2. On a run in which every tick and every run of the effect finds the
    previous status query settled, at most one call is pending at any
    moment, and so at most one connect call is in flight. *)
Theorem sequenced_single_connect (es : list Event) :
  sequenced mounting es = true ->
  (statusPending (run mounting es) + connectsInFlight (run mounting es) <= 1)%nat
  /\ (connectsInFlight (run mounting es) = 1%nat ->
      isConnecting (run mounting es) = true).
Proof.
  induction es as [|e es IH] using rev_ind; [intros _; split; [cbv; lia | discriminate]|].
  rewrite sequenced_app, run_app. simpl. rewrite andb_true_r.
  intros [Hes He]%andb_true_iff. destruct (IH Hes) as [Hle Hone].
  destruct (step_counts (run mounting es) e)
    as [(Hs & Hc & Hf & _)|[((c & Hev) & Hh & Hs & Hc & Hf & _)|[(Hs & Hc & Hf & _)
       |[(Hs & Hc & Hf & _)|(Hs & Hc & Hf & _)]]]].
  - rewrite Hs, Hc, Hf. auto.
  - assert (Hp : statusPending (run mounting es) = 0%nat).
    { destruct Hev as [-> | ->]; apply Nat.eqb_eq, He. }
    assert (Hn : connectsInFlight (run mounting es) = 0%nat).
    { destruct (connectsInFlight (run mounting es)) as [|[|k]]; [reflexivity| |lia].
      specialize (Hone eq_refl). congruence. }
    split; [lia|]. intros H1. lia.
  - split; [lia|]. rewrite Hc, Hf. exact Hone.
  - split; [lia|]. intros _. exact Hf.
  - split; [lia|]. intros H1. lia.
Qed.

Lemma sequenced_single_connect_witness :
  (statusPending
     (run mounting [EffectRun (Some (WatchdogTheorems.autoConfig "ws://pool"));
                    StatusSettled 0 (inr "Disconnected"); Tick;
                    ConnectSettled 0 false; Tick])
   + connectsInFlight
       (run mounting [EffectRun (Some (WatchdogTheorems.autoConfig "ws://pool"));
                      StatusSettled 0 (inr "Disconnected"); Tick;
                      ConnectSettled 0 false; Tick]) <= 1)%nat.
Proof.
  apply (sequenced_single_connect
           [EffectRun (Some (WatchdogTheorems.autoConfig "ws://pool"));
            StatusSettled 0 (inr "Disconnected"); Tick;
            ConnectSettled 0 false; Tick]).
  reflexivity.
Defined.

(** X3. The watchdog never connects without asking first: on every run
    the connect calls sent, together with the status queries still pending,
    are at most the status queries sent. *)
Theorem connect_follows_status (es : list Event) :
  (connectCalls (run mounting es) + statusPending (run mounting es)
   <= statusCalls (run mounting es))%nat.
Proof.
  induction es as [|e es IH] using rev_ind; [cbv; lia|].
  rewrite run_app. simpl.
  destruct (step_counts (run mounting es) e)
    as [(Hs & _ & _ & Hcc & Hsc)|[(_ & _ & Hs & _ & _ & Hcc & Hsc)|[(Hs & _ & _ & Hcc & Hsc)
       |[(Hs & _ & _ & Hcc & Hsc)|(Hs & _ & _ & Hcc & Hsc)]]]]; lia.
Qed.

Lemma ticks_without_timer (h : Hook) (n : nat) :
  retryInterval h = None -> run h (replicate n Tick) = h.
Proof.
  intros Hnone. induction n as [|n IH]; [reflexivity|].
  simpl. rewrite Hnone. exact IH.
Qed.

(** X4. When the effect runs with auto-connect off (or without a
    configuration), and likewise when the component unmounts, the timer is
    cleared and nothing else changes: no call is sent, the pending tasks, the
    flag and the log are what they were. No number of later ticks changes
    anything, and a connect call that was in flight still clears the flag
    when it settles. When the effect then runs with auto-connect on and the
    flag clear, the status query goes out at once and the timer runs with
    the new configuration. *)
Theorem disabling_stops_ticks (h : Hook) (config : option AppConfig.t) (n : nat) :
  autoConnect config = false ->
  let stopped := mkHook (isConnecting h) None (tasks h) (calls h) (console h) in
  step h (EffectRun config) = stopped
  /\ step h Unmount = stopped
  /\ run stopped (replicate n Tick) = stopped
  /\ (forall i ok, tasks h !! i = Some AwaitingConnect ->
        isConnecting (step stopped (ConnectSettled i ok)) = false
        /\ calls (step stopped (ConnectSettled i ok)) = calls h)
  /\ (forall c, autoConnect (Some c) = true -> isConnecting h = false ->
        calls (step stopped (EffectRun (Some c))) = (calls h ++ [tokenpool_status])%list
        /\ retryInterval (step stopped (EffectRun (Some c))) = Some c).
Proof.
  intros Hoff. cbv zeta.
  split; [|split; [reflexivity|split; [|split]]].
  - simpl. unfold effect. destruct config as [c|]; [|reflexivity].
    rewrite Hoff. reflexivity.
  - apply ticks_without_timer. reflexivity.
  - intros i ok Hi. simpl. unfold connectSettled. simpl. rewrite Hi. split; reflexivity.
  - intros c Hon Hclear. simpl. unfold effect. rewrite Hon.
    unfold checkAndConnect. simpl. rewrite Hclear. split; reflexivity.
Qed.

Lemma disabling_stops_ticks_witness :
  step (run mounting [EffectRun (Some (WatchdogTheorems.autoConfig "ws://pool"));
                      StatusSettled 0 (inr "Disconnected")])
       (EffectRun None)
  = mkHook true None [AwaitingConnect]
      [tokenpool_status; tokenpool_connect "ws://pool"]
      ["[TokenPool] Auto-connecting..."].
Proof.
  apply (disabling_stops_ticks
           (run mounting [EffectRun (Some (WatchdogTheorems.autoConfig "ws://pool"));
                          StatusSettled 0 (inr "Disconnected")])
           None 3).
  reflexivity.
Defined.

End WatchdogInvariants.

(** ** The schedule of the settings page: further results *)

Module ScheduleExtras.

Import TimeText Settings ArrayProps TimeProps ScheduleProps.

Lemma lt_intervalDiff a b :
  JS.lt (intervalDiff a b) (Some minInterval) = true <->
  exists x y, a = Some x /\ b = Some y /\ distance x y < 300.
Proof.
  destruct a as [x|], b as [y|]; simpl.
  - rewrite intervalDiff_distance. simpl. rewrite Z.ltb_lt. unfold minInterval.
    split.
    + intros H. exists x, y. auto.
    + intros (x' & y' & [= <-] & [= <-] & H). exact H.
  - split; [discriminate | intros (x' & y' & _ & [=] & _)].
  - split; [discriminate | intros (x' & y' & [=] & _)].
  - split; [discriminate | intros (x' & y' & [=] & _)].
Qed.

Lemma truthy_true s : JS.truthy s = true <-> s ≠ "".
Proof.
  unfold JS.truthy. rewrite negb_true_iff. split.
  - intros H ->. discriminate.
  - intros H. apply String.eqb_neq. exact H.
Qed.

Lemma tooClose_true nm other :
  tooClose nm other = true <->
  TimeRange.start other ≠ "" /\ TimeRange.enabled other ≠ Some false
  /\ exists x y, nm = Some x /\ minutesOf (TimeRange.start other) = Some y
                 /\ distance x y < 300.
Proof.
  unfold tooClose. rewrite <- lt_intervalDiff, <- truthy_true.
  destruct (JS.truthy (TimeRange.start other)); simpl.
  - destruct (bool_decide_reflect (TimeRange.enabled other = Some false)) as [He|He].
    + split; [discriminate | intros (_ & Hne & _); contradiction].
    + split; [intros H; auto | intros (_ & _ & H); exact H].
  - split; [discriminate | intros (H & _); discriminate].
Qed.

Lemma split_nonempty sep s : exists x xs, JS.split sep s = x :: xs.
Proof.
  destruct s as [|c s]; simpl; [eauto|].
  destruct (Ascii.eqb c sep); [eauto|].
  destruct (JS.split sep s); eauto.
Qed.

Lemma split_second sep s :
  JS.split sep s !! 1%nat = None <-> sep ∉ list_ascii_of_string s.
Proof.
  induction s as [|c s IH]; simpl.
  - split; [intros _ H; inversion H | reflexivity].
  - destruct (Ascii.eqb_spec c sep) as [->|Hne].
    + destruct (split_nonempty sep s) as (x & xs & ->). simpl.
      split; [discriminate | intros H; exfalso; apply H; left].
    + destruct (split_nonempty sep s) as (x & xs & Hs). rewrite Hs in *. simpl in *.
      rewrite IH. rewrite not_elem_of_cons. split; [intros H; split; auto | intros [_ H]; exact H].
Qed.

(** What a time field holds: nothing, or the text ["HH:MM"] of a minute of
    the day. On these texts the reading of the hour and the minute is the
    one of the page. *)
Definition fromTimeField (s : string) : Prop :=
  s = "" \/ exists t, 0 <= t <= 1439 /\ s = clock t.

(** Every stored row has a start that a time field produced. *)
Definition rowsFromTimeField (times : schedule) : Prop :=
  forall k other, JS.index k times = Some other -> fromTimeField (TimeRange.start other).

Lemma minutesOf_clock t : 0 <= t <= 1439 -> minutesOf (clock t) = Some t.
Proof.
  intros Ht. unfold minutesOf, JS.numAt. cbv zeta. rewrite timeParts_clock by exact Ht.
  simpl. f_equal. pose proof (Z.div_mod t 60). lia.
Qed.

Lemma clock_nonempty t : 0 <= t <= 1439 -> clock t ≠ "".
Proof.
  intros Ht He. pose proof (minutesOf_clock t Ht) as H. rewrite He in H. discriminate.
Qed.

Lemma fromTimeField_minutes s x :
  fromTimeField s -> minutesOf s = Some x -> 0 <= x <= 1439 /\ s = clock x.
Proof.
  intros [->|(t & Ht & ->)] Hx; [discriminate|].
  rewrite (minutesOf_clock t Ht) in Hx. injection Hx as <-. auto.
Qed.

Lemma rowsFromTimeField_initial : rowsFromTimeField (currentTimes initialFormData).
Proof.
  intros k other Hk.
  destruct k as [|[|[|k]]]; try discriminate; injection Hk as <-; right;
    [exists 600 | exists 900 | exists 1260]; (split; [lia | reflexivity]).
Qed.

Lemma minutesOf_without_colon s :
  ":"%char ∉ list_ascii_of_string s -> minutesOf s = None.
Proof.
  intros Hno. unfold minutesOf, JS.numAt, timeParts. cbv zeta.
  assert (H1 : (JS.Number <$> JS.split ":" s) !! 1%nat = None).
  { rewrite list_lookup_fmap. apply split_second in Hno. rewrite Hno. reflexivity. }
  rewrite H1. destruct ((JS.Number <$> JS.split ":" s) !! 0%nat) as [[h|]|]; reflexivity.
Qed.

(** In the model's reading of the two texts. *)
Lemma rejected_when_close (idx : nat) (s : string) (en : option bool) (p : Page) :
  toasts (updateTimePoint idx (mkUpdates (Some s) en) p) ≠ toasts p <->
  exists k other x y,
    k ≠ idx
    /\ JS.index k (currentTimes (formData p)) = Some other
    /\ TimeRange.start other ≠ "" /\ TimeRange.enabled other ≠ Some false
    /\ minutesOf s = Some x /\ minutesOf (TimeRange.start other) = Some y
    /\ distance x y < 300.
Proof.
  destruct (updateTimePoint_cases idx (mkUpdates (Some s) en) p)
    as [(s' & [= <-] & Herr & Heq) | (Hacc & Hsame & _)].
  - split.
    + intros _. apply intervalError_true in Herr as (k & other & Hk & Hne & Hc).
      apply tooClose_true in Hc as (Hs & He & x & y & Hx & Hy & Hd).
      exists k, other, x, y. rewrite index_Some_lookup. simpl in Hne. auto 10.
    + intros _. rewrite Heq. simpl. intros H.
      apply (f_equal length) in H. simpl in H. lia.
  - split; [contradiction|].
    intros (k & other & x & y & Hne & Hk & Hs & He & Hx & Hy & Hd). exfalso.
    specialize (Hacc s eq_refl).
    assert (Ht : intervalError idx (minutesOf s) 0 (currentTimes (formData p)) = true);
      [|congruence].
    apply intervalError_true. exists k, other. rewrite <- index_Some_lookup.
    split; [exact Hk|]. split; [exact Hne|].
    apply tooClose_true. split; [exact Hs|]. split; [exact He|]. exists x, y. auto.
Qed.

(** X5. On a page whose rows come from the time fields, a time edit with
    a text from a time field is turned down exactly when some other row holds
    a window with a time, not switched off, less than 300 minutes from the
    new time on the ring. *)
Theorem time_edit_rejected_iff (idx : nat) (s : string) (en : option bool) (p : Page) :
  fromTimeField s ->
  rowsFromTimeField (currentTimes (formData p)) ->
  (toasts (updateTimePoint idx (mkUpdates (Some s) en) p) ≠ toasts p <->
   exists k other t t',
     k ≠ idx
     /\ JS.index k (currentTimes (formData p)) = Some other
     /\ TimeRange.enabled other ≠ Some false
     /\ 0 <= t <= 1439 /\ 0 <= t' <= 1439
     /\ s = clock t /\ TimeRange.start other = clock t'
     /\ distance t t' < 300).
Proof.
  intros Hs Hrows. rewrite rejected_when_close. split.
  - intros (k & other & x & y & Hk & Ho & Hne & He & Hx & Hy & Hd).
    destruct (fromTimeField_minutes s x Hs Hx) as [Hxr ->].
    destruct (fromTimeField_minutes _ y (Hrows k other Ho) Hy) as [Hyr Hst].
    exists k, other, x, y. auto 10.
  - intros (k & other & t & t' & Hk & Ho & He & Ht & Ht' & -> & Hst & Hd).
    exists k, other, t, t'.
    split; [exact Hk|]. split; [exact Ho|].
    split; [rewrite Hst; apply clock_nonempty, Ht'|]. split; [exact He|].
    split; [apply minutesOf_clock, Ht|].
    split; [rewrite Hst; apply minutesOf_clock, Ht' | exact Hd].
Qed.

Lemma time_edit_rejected_iff_witness :
  toasts (updateTimePoint 0 (mkUpdates (Some "12:00") None) initialPage)
  ≠ toasts initialPage.
Proof.
  apply (time_edit_rejected_iff 0 "12:00" None initialPage).
  - right. exists 720. split; [lia | reflexivity].
  - exact rowsFromTimeField_initial.
  - exists 1%nat, (TimeRange.mk "15:00" "15:00" (Some true)), 720, 900.
    repeat split; (discriminate || reflexivity || lia).
Defined.

(** X6. A new text without a colon, such as the empty text of a cleared
    field, has no minute part, so its minutes are not a number and the edit
    is never turned down: the row then holds that text as start and end. *)
Theorem unreadable_time_accepted (idx : nat) (s : string) (en : option bool) (p : Page) :
  ":"%char ∉ list_ascii_of_string s ->
  let p' := updateTimePoint idx (mkUpdates (Some s) en) p in
  toasts p' = toasts p
  /\ TimeRange.start <$> JS.index idx (currentTimes (formData p')) = Some s
  /\ TimeRange.end_ <$> JS.index idx (currentTimes (formData p')) = Some s.
Proof.
  intros Hno. apply minutesOf_without_colon in Hno as Hnan. cbv zeta.
  destruct (updateTimePoint_cases idx (mkUpdates (Some s) en) p)
    as [(s' & [= <-] & Herr & _) | (_ & Hsame & Hd & _)].
  - apply intervalError_true in Herr as (k & other & _ & _ & Hc).
    apply tooClose_true in Hc as (_ & _ & x & y & Hx & _). congruence.
  - split; [exact Hsame|].
    rewrite (defaultOf_currentTimes _ _ Hd), index_spread, index_set_index_eq.
    split; reflexivity.
Qed.

Lemma unreadable_time_accepted_witness :
  toasts (updateTimePoint 1 (mkUpdates (Some "") None) initialPage) = toasts initialPage.
Proof.
  apply (unreadable_time_accepted 1 "" None initialPage). apply not_elem_of_nil.
Defined.

(** X7. On a page whose rows come from the time fields and whose windows
    are separated, entering again the time a window already has is accepted:
    a window is not compared with itself. *)
Theorem same_time_accepted (idx : nat) (w : TimeRange.t) (en : option bool) (p : Page) :
  rowsFromTimeField (currentTimes (formData p)) ->
  Separated (formData p) ->
  JS.index idx (currentTimes (formData p)) = Some w ->
  counts w ->
  toasts (updateTimePoint idx (mkUpdates (Some (TimeRange.start w)) en) p) = toasts p.
Proof.
  intros _ Hsep Hw Hcw.
  destruct (updateTimePoint_cases idx (mkUpdates (Some (TimeRange.start w)) en) p)
    as [(s' & [= <-] & Herr & _) | (_ & Hsame & _)]; [|exact Hsame].
  exfalso. apply intervalError_true in Herr as (k & other & Hk & Hne & Hc).
  apply tooClose_true in Hc as (Hs & He & x & y & Hx & Hy & Hd).
  apply index_Some_lookup in Hk. simpl in Hne.
  pose proof (separated_currentTimes _ Hsep idx k w other x y) as Hfar.
  assert (300 <= distance x y); [|lia].
  apply Hfar; auto. split; [apply truthy_true, Hs | exact He].
Qed.

Lemma same_time_accepted_witness :
  toasts (updateTimePoint 1 (mkUpdates (Some "15:00") None) initialPage)
  = toasts initialPage.
Proof.
  apply (same_time_accepted 1 (TimeRange.mk "15:00" "15:00" (Some true)) None initialPage).
  - exact rowsFromTimeField_initial.
  - exact Separated_initial.
  - reflexivity.
  - split; [reflexivity | discriminate].
Defined.

Lemma length_set_index {A} (i : nat) (v : A) (l : list (JS.slot A)) :
  length (JS.set_index i v l) = Nat.max (length l) (S i).
Proof.
  unfold JS.set_index. destruct (decide (i < length l)%nat).
  - rewrite length_insert. lia.
  - rewrite !length_app, length_replicate. simpl. lia.
Qed.

(** X8. After an accepted update of row [idx], that row reads back as the
    entry built from the update and the row's previous entry, every other
    row reads as before, and the array has grown just enough to hold row
    [idx]: its length is the larger of the old length and [idx + 1]. *)
Theorem accepted_update_rows (idx : nat) (updates : Updates) (p : Page) :
  toasts (updateTimePoint idx updates p) = toasts p ->
  let T := currentTimes (formData p) in
  let T' := currentTimes (formData (updateTimePoint idx updates p)) in
  JS.index idx T' = Some (updatedEntry updates (JS.index idx T))
  /\ (forall j, j ≠ idx -> JS.index j T' = JS.index j T)
  /\ length T' = Nat.max (length T) (S idx).
Proof.
  intros Hacc. cbv zeta.
  destruct (updateTimePoint_cases idx updates p)
    as [(s & _ & _ & Heq) | (_ & _ & Hd & _)].
  - exfalso. rewrite Heq in Hacc. simpl in Hacc.
    apply (f_equal length) in Hacc. simpl in Hacc. lia.
  - rewrite (defaultOf_currentTimes _ _ Hd). split; [|split].
    + rewrite index_spread. apply index_set_index_eq.
    + intros j Hj. rewrite index_spread. apply index_set_index_ne. auto.
    + rewrite length_spread. apply length_set_index.
Qed.

Lemma accepted_update_rows_witness :
  length (currentTimes (formData (updateTimePoint 4 (mkUpdates (Some "04:00") None) initialPage)))
  = Nat.max (length (currentTimes (formData initialPage))) 5.
Proof.
  apply (accepted_update_rows 4 (mkUpdates (Some "04:00") None) initialPage).
  reflexivity.
Defined.

(** X9. An accepted update rewrites the whole warmup block: warmup is
    switched on whatever it was, the schedules keep only the default key,
    and the monitored models, peak hours and warmup mode are dropped; the
    rest of the form data is untouched. *)
Theorem accepted_update_resets_block (idx : nat) (updates : Updates) (p : Page) :
  toasts (updateTimePoint idx updates p) = toasts p ->
  let c' := formData (updateTimePoint idx updates p) in
  (exists times,
     AppConfig.scheduled_warmup c'
     = Some (ScheduledWarmupConfig.mk true (Some {[ "default" := times ]}) None None None))
  /\ (forall m key, schedulesOf c' = Some m -> key ≠ "default" -> m !! key = None)
  /\ AppConfig.token_pool c' = AppConfig.token_pool (formData p)
  /\ AppConfig.proxy c' = AppConfig.proxy (formData p)
  /\ AppConfig.language c' = AppConfig.language (formData p)
  /\ AppConfig.theme c' = AppConfig.theme (formData p)
  /\ AppConfig.auto_refresh c' = AppConfig.auto_refresh (formData p)
  /\ AppConfig.refresh_interval c' = AppConfig.refresh_interval (formData p)
  /\ AppConfig.auto_sync c' = AppConfig.auto_sync (formData p)
  /\ AppConfig.sync_interval c' = AppConfig.sync_interval (formData p).
Proof.
  intros Hacc. cbv zeta. revert Hacc. unfold updateTimePoint. cbv zeta.
  destruct (match u_start updates with
            | Some newTimeStr => intervalError idx (minutesOf newTimeStr) 0
                                   (currentTimes (formData p))
            | None => false
            end).
  - simpl. intros H. apply (f_equal length) in H. simpl in H. lia.
  - intros _. simpl. split; [eexists; reflexivity|].
    split; [|repeat split].
    intros m key [= <-] Hkey. apply lookup_singleton_ne. congruence.
Qed.

Lemma accepted_update_resets_block_witness :
  exists times,
    AppConfig.scheduled_warmup
      (formData (updateTimePoint 0 (mkUpdates None (Some false)) initialPage))
    = Some (ScheduledWarmupConfig.mk true (Some {[ "default" := times ]}) None None None).
Proof.
  apply (accepted_update_resets_block 0 (mkUpdates None (Some false)) initialPage).
  reflexivity.
Defined.

(** The loop does not look at row [idx], so overwriting that row does not
    change its outcome. *)
Lemma intervalError_insert idx nm v (l : schedule) : forall i k,
  (i + k)%nat = idx ->
  intervalError idx nm i (<[k := v]> l) = intervalError idx nm i l.
Proof.
  induction l as [|s l IH]; intros i k Hik; [reflexivity|].
  destruct k as [|k]; simpl.
  - destruct (decide (i = idx)) as [_|Hne]; [reflexivity | lia].
  - rewrite (IH (S i) k) by lia. reflexivity.
Qed.

Lemma spread_dense {A} (l : list (JS.slot A)) :
  WarmupCardProps.dense l -> JS.spread l = l.
Proof.
  unfold JS.spread. induction 1 as [|s l Hs _ IH]; [reflexivity|].
  rewrite fmap_cons, IH. destruct s; [congruence | reflexivity | reflexivity].
Qed.

Lemma updatedEntry_again updates old :
  updatedEntry updates (Some (updatedEntry updates old)) = updatedEntry updates old.
Proof.
  destruct updates as [[s|] [b|]], old as [[st e [en|]]|]; reflexivity.
Qed.

Lemma with_scheduled_warmup_twice c sw sw' :
  AppConfig.with_scheduled_warmup (AppConfig.with_scheduled_warmup c sw) sw'
  = AppConfig.with_scheduled_warmup c sw'.
Proof. reflexivity. Qed.

(** X10. Repeating an accepted update of an existing row changes nothing
    further: the second call is accepted too and leaves the page exactly as
    the first did. *)
Theorem accepted_update_idempotent (idx : nat) (updates : Updates) (p : Page) :
  (idx < length (currentTimes (formData p)))%nat ->
  toasts (updateTimePoint idx updates p) = toasts p ->
  updateTimePoint idx updates (updateTimePoint idx updates p)
  = updateTimePoint idx updates p.
Proof.
  intros Hidx Hacc.
  destruct (updateTimePoint_cases idx updates p)
    as [(s & _ & _ & Heq) | (Hok & _ & Hd & _)].
  { exfalso. rewrite Heq in Hacc. simpl in Hacc.
    apply (f_equal length) in Hacc. simpl in Hacc. lia. }
  set (T := currentTimes (formData p)) in *.
  set (e := updatedEntry updates (JS.index idx T)) in *.
  assert (HT' : JS.set_index idx e T = <[idx := JS.val e]> T).
  { unfold JS.set_index. destruct (decide (idx < length T)%nat); [reflexivity | lia]. }
  assert (Hcur : currentTimes (formData (updateTimePoint idx updates p))
                 = <[idx := JS.val e]> T).
  { rewrite (defaultOf_currentTimes _ _ Hd), HT'. apply spread_dense.
    apply Forall_insert; [apply WarmupCardProps.dense_spread | discriminate]. }
  assert (Hfirst : updateTimePoint idx updates p
                   = setFormData
                       (AppConfig.with_scheduled_warmup (formData p)
                          (ScheduledWarmupConfig.mk true
                             (Some {[ "default" := <[idx := JS.val e]> T ]}) None None None))
                       p).
  { unfold updateTimePoint. cbv zeta. fold T.
    destruct (u_start updates) as [s|] eqn:Hs.
    - rewrite (Hok s eq_refl). fold e. rewrite HT'. reflexivity.
    - fold e. rewrite HT'. reflexivity. }
  unfold updateTimePoint at 1. cbv zeta. rewrite Hcur.
  assert (Hval : match u_start updates with
                 | Some newTimeStr =>
                     intervalError idx (minutesOf newTimeStr) 0 (<[idx := JS.val e]> T)
                 | None => false
                 end = false).
  { destruct (u_start updates) as [s|] eqn:Hs; [|reflexivity].
    rewrite intervalError_insert by reflexivity. apply Hok. reflexivity. }
  rewrite Hval.
  assert (Hidx' : JS.index idx (<[idx := JS.val e]> T) = Some e).
  { unfold JS.index. rewrite list_lookup_insert_eq by exact Hidx. reflexivity. }
  rewrite Hidx'.
  replace (updatedEntry updates (Some e)) with e
    by (unfold e; symmetry; apply updatedEntry_again).
  unfold JS.set_index. rewrite length_insert.
  destruct (decide (idx < length T)%nat) as [_|]; [|lia].
  rewrite list_insert_insert_eq. rewrite Hfirst. reflexivity.
Qed.

Lemma accepted_update_idempotent_witness :
  updateTimePoint 2 (mkUpdates (Some "22:15") None)
    (updateTimePoint 2 (mkUpdates (Some "22:15") None) initialPage)
  = updateTimePoint 2 (mkUpdates (Some "22:15") None) initialPage.
Proof.
  apply (accepted_update_idempotent 2 (mkUpdates (Some "22:15") None) initialPage).
  - vm_compute. lia.
  - reflexivity.
Defined.

(** The page renders the rows 0, 1 and 2 (line 420). *)
Definition onPage (mu : Mutation) : Prop :=
  match mu with
  | Update idx _ => (idx < 3)%nat
  | EnableSwitch _ => True
  end.

(** The stored default schedule has exactly three entries, none of them a
    hole or undefined. *)
Definition threeRows (c : AppConfig.t) : Prop :=
  exists a b d, defaultOf c = Some [JS.val a; JS.val b; JS.val d].

Lemma threeRows_switch checked p :
  threeRows (formData p) ->
  exists p', onEnableChange checked p = Some p' /\ threeRows (formData p').
Proof.
  intros (a & b & d & Hd).
  assert (Hhas : exists has, hasExistingSchedules (formData p) = Some has).
  { unfold defaultOf in Hd. unfold hasExistingSchedules.
    destruct (schedulesOf (formData p)) as [m|]; [|discriminate].
    simpl in Hd. rewrite Hd. simpl.
    destruct (JS.truthy (TimeRange.start a)), (JS.truthy (TimeRange.start b)),
      (JS.truthy (TimeRange.start d)); eauto. }
  destruct Hhas as (has & Hhas).
  destruct (onEnableChange checked p) as [p'|] eqn:He.
  - exists p'. split; [reflexivity|].
    apply onEnableChange_schedules in He as [_ [[_ Hs]|[_ Hs]]]; unfold threeRows, defaultOf.
    + rewrite Hs. exists a, b, d. exact Hd.
    + rewrite Hs. simpl. unfold defaultSchedules. rewrite lookup_singleton_eq.
      unfold defaultTimes. eauto.
  - unfold onEnableChange in He. rewrite Hhas in He. discriminate.
Qed.

Lemma threeRows_mutate p mu :
  onPage mu -> threeRows (formData p) -> threeRows (formData (mutate p mu)).
Proof.
  intros Hmu Hp. destruct mu as [idx updates|checked]; simpl.
  - destruct (updateTimePoint_cases idx updates p)
      as [(s & _ & _ & ->) | (_ & _ & Hd & _)]; [exact Hp|].
    destruct Hp as (a & b & d & Hp). unfold threeRows. rewrite Hd.
    unfold currentTimes. rewrite Hp. simpl in *.
    destruct idx as [|[|[|idx]]]; [| | |lia]; unfold JS.set_index; simpl; eauto.
  - destruct (threeRows_switch checked p Hp) as (p' & -> & Hp'). exact Hp'.
Qed.

(** X11. On the page itself, where only rows 0, 1 and 2 are edited, every
    sequence of updates and uses of the enable switch from the initial form
    data keeps the default schedule at exactly three defined entries; so no
    update grows the array and the enable switch never throws. *)
Theorem page_keeps_three_rows (ms : list Mutation) :
  Forall onPage ms ->
  let p := foldl mutate initialPage ms in
  threeRows (formData p)
  /\ forall checked, is_Some (onEnableChange checked p).
Proof.
  intros Hms. cbv zeta.
  assert (Hinv : forall p, threeRows (formData p) ->
                   threeRows (formData (foldl mutate p ms))).
  { induction Hms as [|mu ms Hmu _ IH]; intros p Hp; simpl; [exact Hp|].
    apply IH, threeRows_mutate; assumption. }
  assert (H3 : threeRows (formData (foldl mutate initialPage ms))).
  { apply Hinv. unfold threeRows, defaultTimes. eexists _, _, _. vm_compute. reflexivity. }
  split; [exact H3|]. intros checked.
  destruct (threeRows_switch checked _ H3) as (p' & -> & _). eauto.
Qed.

Lemma page_keeps_three_rows_witness :
  threeRows (formData (foldl mutate initialPage
     [ScheduleTheorems.setTime 0 ""; ScheduleTheorems.setEnabled 2 false;
      EnableSwitch false; ScheduleTheorems.setTime 1 "03:00"])).
Proof.
  apply (page_keeps_three_rows
     [ScheduleTheorems.setTime 0 ""; ScheduleTheorems.setEnabled 2 false;
      EnableSwitch false; ScheduleTheorems.setTime 1 "03:00"]).
  repeat constructor.
Defined.

(** X12. For two times of day in [0,1439] the distance of the separation
    check lies in [0,720], and it is 0 exactly when the two times are equal. *)
Theorem intervalDiff_bounds (a b : Z) :
  0 <= a <= 1439 -> 0 <= b <= 1439 ->
  exists d, intervalDiff (Some a) (Some b) = Some d
            /\ 0 <= d <= 720 /\ (d = 0 <-> a = b).
Proof.
  intros Ha Hb. exists (distance a b). split; [apply intervalDiff_distance|].
  unfold distance. split; [lia|]. split; lia.
Qed.

Lemma intervalDiff_bounds_witness :
  exists d, intervalDiff (Some 5) (Some 1435) = Some d
            /\ 0 <= d <= 720 /\ (d = 0 <-> 5 = 1435).
Proof. apply (intervalDiff_bounds 5 1435); lia. Defined.

(** X13. The hour-based helper fails exactly on a non-empty text without
    a colon (the minute is then undefined); on the empty text it returns the
    placeholder; the minute-based helper returns the text NaN:NaN for every
    text without a colon, the empty one included. *)
Theorem helpers_without_colon (s : string) :
  (getWarmupTime s = None <-> s ≠ "" /\ ":"%char ∉ list_ascii_of_string s)
  /\ getWarmupTime "" = Some "--:--"
  /\ (":"%char ∉ list_ascii_of_string s ->
      SmartWarmup.calculateWarmupTime s = "NaN:NaN").
Proof.
  assert (Hparts : timeParts s !! 1%nat = None <-> ":"%char ∉ list_ascii_of_string s).
  { unfold timeParts. rewrite list_lookup_fmap, <- split_second.
    destruct (JS.split ":" s !! 1%nat); simpl; split; congruence. }
  split; [|split; [reflexivity|]].
  - unfold getWarmupTime. destruct (JS.truthy s) eqn:Ht; simpl.
    + apply truthy_true in Ht. rewrite <- Hparts.
      destruct (timeParts s !! 1%nat); simpl; split; try congruence; try tauto.
      intros [_ H]. discriminate.
    + split; [discriminate | intros [Hne _]]. apply truthy_true in Hne. congruence.
  - intros Hno. apply Hparts in Hno.
    unfold SmartWarmup.calculateWarmupTime, minutesOf, JS.numAt. cbv zeta.
    rewrite Hno. destruct (timeParts s !! 0%nat) as [[h|]|]; reflexivity.
Qed.

Lemma helpers_without_colon_witness :
  SmartWarmup.calculateWarmupTime "1030" = "NaN:NaN".
Proof.
  apply (helpers_without_colon "1030"). vm_compute.
  intros H. repeat (apply elem_of_cons in H as [H|H]; [discriminate|]). inversion H.
Defined.

End ScheduleExtras.

(** ** The warmup card: further results *)

Module CardExtras.

Import SmartWarmup WarmupCardProps ArrayProps.

(** X14. Unless the model is the only one selected, clicking it flips its
    membership in the monitored models and leaves the membership of every
    other model as it was. *)
Theorem toggleModel_membership (model : string) (c : config) :
  ~ (model ∈ models c /\ (length (models c) <= 1)%nat) ->
  forall x, x ∈ models (act (ToggleModel model) c) <->
            (if decide (x = model) then x ∉ models c else x ∈ models c).
Proof.
  intros Hnotlast x. unfold act, applied, toggleModel. cbv zeta. fold (models c).
  destruct (bool_decide_reflect (model ∈ models c)) as [Hin|Hout].
  - destruct (Nat.leb_spec (length (models c)) 1) as [Hle|Hgt]; [tauto|]. simpl.
    rewrite models_with_monitored_models, list_elem_of_filter.
    destruct (decide (x = model)) as [->|Hne]; tauto.
  - simpl. rewrite models_with_monitored_models, elem_of_app, list_elem_of_singleton.
    destruct (decide (x = model)) as [->|Hne]; tauto.
Qed.

Lemma toggleModel_membership_witness :
  "claude-sonnet-4-5" ∈ models (act (ToggleModel "gemini-3-flash") WarmupTheorems.sampleConfig)
  <-> (if decide ("claude-sonnet-4-5" = "gemini-3-flash")
       then "claude-sonnet-4-5" ∉ models WarmupTheorems.sampleConfig
       else "claude-sonnet-4-5" ∈ models WarmupTheorems.sampleConfig).
Proof.
  apply (toggleModel_membership "gemini-3-flash" WarmupTheorems.sampleConfig).
  simpl. lia.
Defined.

Lemma filter_other_app (model : string) (l : list string) :
  model ∉ l -> filter (fun m => m ≠ model) (l ++ [model])%list = l.
Proof.
  intros Hout. rewrite filter_app. rewrite filter_cons_False by auto.
  rewrite filter_nil, app_nil_r.
  induction l as [|a l IH]; [reflexivity|].
  apply not_elem_of_cons in Hout as [Hne Hout].
  rewrite filter_cons_True by auto. rewrite IH by exact Hout. reflexivity.
Qed.

(** X15. Selecting a model that was not selected and clicking it again
    gives back the configuration one started from, provided some model was
    selected before. *)
Theorem toggleModel_twice (model : string) (c : config) :
  model ∉ models c -> models c ≠ [] ->
  act (ToggleModel model) (act (ToggleModel model) c) = c.
Proof.
  intros Hout Hne. unfold act, applied, toggleModel. cbv zeta. fold (models c).
  rewrite bool_decide_eq_false_2 by exact Hout. simpl.
  rewrite bool_decide_eq_true_2
    by (apply elem_of_app; right; apply list_elem_of_singleton; reflexivity).
  rewrite length_app. simpl.
  destruct (Nat.leb_spec (length (models c) + 1) 1) as [Hle|Hgt].
  - destruct (models c); [congruence | simpl in Hle; lia].
  - simpl. rewrite filter_other_app by exact Hout.
    unfold models in *. destruct c as [e sch [ms|] ph wm]; simpl in *; [reflexivity | congruence].
Qed.

Lemma toggleModel_twice_witness :
  act (ToggleModel "gemini-3-pro-high")
    (act (ToggleModel "gemini-3-pro-high") WarmupTheorems.sampleConfig)
  = WarmupTheorems.sampleConfig.
Proof.
  apply (toggleModel_twice "gemini-3-pro-high" WarmupTheorems.sampleConfig).
  - vm_compute. intros H. repeat (apply elem_of_cons in H as [H|H]; [discriminate|]).
    inversion H.
  - discriminate.
Defined.

Lemma filterOtherIndex_delete {A} (l : list (JS.slot A)) : forall index i k,
  index = (i + k)%nat -> dense l -> filterOtherIndex index i l = delete k l.
Proof.
  induction l as [|s l IH]; intros index i k Hik Hd; [destruct k; reflexivity|].
  inversion Hd as [|? ? Hs Hl]; subst index. simpl.
  destruct k as [|k].
  - destruct s as [| |a]; [congruence | |];
      (destruct (decide (i = (i + 0)%nat)); [|lia]);
      apply filterOtherIndex_past; (lia || assumption).
  - destruct s as [| |a]; [congruence | |];
      (destruct (decide (i = (i + S k)%nat)); [lia|]);
      simpl; rewrite (IH (i + S k)%nat (S i) k) by (lia || assumption); reflexivity.
Qed.

Lemma removePeakHour_delete (index : nat) (c : config) :
  dense (peakHours c) -> (1 < length (peakHours c))%nat ->
  peakHours (act (RemovePeakHour index) c) = delete index (peakHours c).
Proof.
  intros Hd Hlen. unfold act, applied, removePeakHour.
  destruct (Nat.leb_spec (length (peakHours c)) 1) as [Hle|_]; [lia|]. simpl.
  rewrite peakHours_with_peak_hours.
  apply (filterOtherIndex_delete (peakHours c) index 0 index); [reflexivity | exact Hd].
Qed.

(** X16. On peak hours without holes and with more than one entry,
    removing row [index] stores the list without its element at [index],
    and an [index] past the end removes nothing. *)
Theorem removePeakHour_deletes (index : nat) (c : config) :
  dense (peakHours c) -> (1 < length (peakHours c))%nat ->
  peakHours (act (RemovePeakHour index) c) = delete index (peakHours c)
  /\ ((length (peakHours c) <= index)%nat ->
      peakHours (act (RemovePeakHour index) c) = peakHours c).
Proof.
  intros Hd Hlen.
  pose proof (removePeakHour_delete index c Hd Hlen) as Heq.
  split; [exact Heq|]. intros Hge. rewrite Heq.
  apply list_eq. intros j. rewrite list_lookup_delete.
  destruct (decide (j < index)%nat) as [|Hj]; [reflexivity|].
  rewrite !lookup_ge_None_2 by lia. reflexivity.
Qed.

Lemma removePeakHour_deletes_witness :
  peakHours (act (RemovePeakHour 1) WarmupTheorems.sampleConfig)
  = delete 1%nat (peakHours WarmupTheorems.sampleConfig).
Proof.
  apply (removePeakHour_deletes 1 WarmupTheorems.sampleConfig).
  - repeat constructor; discriminate.
  - simpl. lia.
Defined.

(** X17. On peak hours without holes, between one and five of them,
    adding a peak hour and then removing the row it was added in gives back
    the peak hours one started from. *)
Theorem add_then_remove (c : config) :
  dense (peakHours c) -> (1 <= length (peakHours c) < 6)%nat ->
  peakHours (act (RemovePeakHour (length (peakHours c))) (act AddPeakHour c))
  = peakHours c.
Proof.
  intros Hd Hlen.
  assert (Hadd : peakHours (act AddPeakHour c) = (peakHours c ++ [JS.val "12:00"])%list).
  { unfold act, applied, addPeakHour.
    destruct (Nat.leb_spec 6 (length (peakHours c))) as [Hfull|_]; [lia|]. simpl.
    rewrite peakHours_with_peak_hours, ScheduleExtras.spread_dense by exact Hd.
    reflexivity. }
  rewrite removePeakHour_delete.
  - rewrite Hadd. apply list_eq. intros j.
    rewrite list_lookup_delete.
    destruct (decide (j < length (peakHours c))%nat) as [Hj|Hj].
    + apply lookup_app_l. exact Hj.
    + rewrite !lookup_ge_None_2; [reflexivity | lia | rewrite length_app; simpl; lia].
  - rewrite Hadd. apply Forall_app. split; [exact Hd|].
    constructor; [discriminate | constructor].
  - rewrite Hadd, length_app. simpl. lia.
Qed.

Lemma add_then_remove_witness :
  peakHours (act (RemovePeakHour (length (peakHours WarmupTheorems.sampleConfig)))
               (act AddPeakHour WarmupTheorems.sampleConfig))
  = peakHours WarmupTheorems.sampleConfig.
Proof.
  apply (add_then_remove WarmupTheorems.sampleConfig).
  - repeat constructor; discriminate.
  - simpl. lia.
Defined.

(** X18. Editing the time of row [index] makes that row read as the new
    text and leaves every other row and the monitored models as they were;
    the number of rows is unchanged for an existing row and grows to
    [index + 1] otherwise. *)
Theorem handlePeakHourChange_rows (index : nat) (value : string) (c : config) :
  let c' := act (SetPeakHour index value) c in
  JS.index index (peakHours c') = Some value
  /\ (forall j, j ≠ index -> JS.index j (peakHours c') = JS.index j (peakHours c))
  /\ length (peakHours c') = Nat.max (length (peakHours c)) (S index)
  /\ models c' = models c.
Proof.
  cbv zeta. unfold act, applied, handlePeakHourChange. cbv zeta. simpl.
  rewrite peakHours_with_peak_hours. split; [apply index_set_index_eq|].
  split; [|split; [|reflexivity]].
  - intros j Hj. rewrite index_set_index_ne by auto. apply index_spread.
  - rewrite ScheduleExtras.length_set_index, length_spread. reflexivity.
Qed.

Lemma handlePeakHourChange_rows_witness :
  JS.index 0 (peakHours (act (SetPeakHour 2 "19:30") WarmupTheorems.sampleConfig))
  = JS.index 0 (peakHours WarmupTheorems.sampleConfig).
Proof.
  apply (handlePeakHourChange_rows 2 "19:30" WarmupTheorems.sampleConfig). lia.
Defined.

(** X19. Switching warmup on or off a second time the same way changes
    nothing more. After either switch the stored peak hours are non-empty and
    the mode is set; after switching on the monitored models are non-empty;
    switching off leaves the monitored models as they were. *)
Theorem handleEnabledChange_settles (enabled : bool) (c : config) :
  let c' := act (SetEnabled enabled) c in
  act (SetEnabled enabled) c' = c'
  /\ ScheduledWarmupConfig.enabled c' = enabled
  /\ missingOrEmpty (ScheduledWarmupConfig.peak_hours c') = false
  /\ ScheduledWarmupConfig.warmup_mode c' ≠ None
  /\ (enabled = true -> missingOrEmpty (ScheduledWarmupConfig.monitored_models c') = false)
  /\ (enabled = false ->
      ScheduledWarmupConfig.monitored_models c' = ScheduledWarmupConfig.monitored_models c).
Proof.
  cbv zeta. unfold act, applied, handleEnabledChange. cbv zeta.
  destruct c as [e sch [[|m ms]|] [[|h hs]|] [wm|]], enabled; simpl;
    repeat split; congruence.
Qed.

Lemma handleEnabledChange_settles_witness :
  missingOrEmpty
    (ScheduledWarmupConfig.monitored_models
       (act (SetEnabled true) (ScheduledWarmupConfig.mk false None (Some []) None None)))
  = false.
Proof.
  apply (handleEnabledChange_settles true
           (ScheduledWarmupConfig.mk false None (Some []) None None)).
  reflexivity.
Defined.

End CardExtras.

(** ** The launch arguments field *)

Module LaunchArgsProps.

Import LaunchArgs.

Abbreviation chars := list_ascii_of_string.

(** No character of the text is white space. *)
Definition wsFree (s : string) : Prop :=
  Forall (fun c => isWhiteSpace c = false) (chars s).

Lemma append_nil_l (r : string) : "" +:+ r = r.
Proof. reflexivity. Qed.

Lemma append_String (c : ascii) (p r : string) : String c p +:+ r = String c (p +:+ r).
Proof. reflexivity. Qed.

Lemma split_without sep s : sep ∉ chars s -> JS.split sep s = [s].
Proof.
  induction s as [|c s IH]; simpl; [reflexivity|].
  intros [Hne Hout]%not_elem_of_cons.
  destruct (Ascii.eqb_spec c sep) as [->|_]; [congruence|].
  rewrite IH by exact Hout. reflexivity.
Qed.

Lemma split_append sep a t :
  sep ∉ chars a -> JS.split sep (a +:+ String sep t) = a :: JS.split sep t.
Proof.
  induction a as [|c a IH]; intros Hout.
  - rewrite append_nil_l. simpl. rewrite Ascii.eqb_refl. reflexivity.
  - simpl in Hout. apply not_elem_of_cons in Hout as [Hne Hout].
    rewrite append_String. simpl.
    destruct (Ascii.eqb_spec c sep) as [->|_]; [congruence|].
    rewrite IH by exact Hout. reflexivity.
Qed.

Lemma split_parts sep s x : x ∈ JS.split sep s -> sep ∉ chars x.
Proof.
  revert x. induction s as [|c s IH]; simpl; intros x Hx.
  - apply list_elem_of_singleton in Hx as ->. simpl. apply not_elem_of_nil.
  - destruct (Ascii.eqb_spec c sep) as [->|Hne].
    + apply elem_of_cons in Hx as [->|Hx]; [apply not_elem_of_nil | apply IH, Hx].
    + destruct (JS.split sep s) as [|y ys] eqn:Hs.
      * apply list_elem_of_singleton in Hx as ->. simpl.
        apply not_elem_of_cons. split; [congruence | apply not_elem_of_nil].
      * apply elem_of_cons in Hx as [->|Hx].
        -- simpl. apply not_elem_of_cons. split; [congruence|]. apply IH. left.
        -- apply IH. right. exact Hx.
Qed.

Lemma split_nonempty_aux sep s : exists x xs, JS.split sep s = x :: xs.
Proof.
  destruct s as [|c s]; simpl; [eauto|].
  destruct (Ascii.eqb c sep); [eauto|].
  destruct (JS.split sep s); eauto.
Qed.

Lemma trimStart_chars s c : c ∈ chars (trimStart s) -> c ∈ chars s.
Proof.
  induction s as [|a s IH]; simpl; [auto|].
  destruct (isWhiteSpace a); [intros H; right; apply IH, H | auto].
Qed.

Lemma trimEnd_chars s c : c ∈ chars (trimEnd s) -> c ∈ chars s.
Proof.
  induction s as [|a s IH]; simpl; [auto|].
  destruct (trimEnd s) as [|b r] eqn:Ht.
  - destruct (isWhiteSpace a); simpl; [intros H; inversion H|].
    intros H. apply elem_of_cons in H as [->|H]; [left | inversion H].
  - simpl. intros H. apply elem_of_cons in H as [->|H]; [left|].
    right. apply IH. exact H.
Qed.

Lemma trim_chars s c : c ∈ chars (trim s) -> c ∈ chars s.
Proof. unfold trim. intros H. apply trimStart_chars, trimEnd_chars, H. Qed.

Lemma trimEnd_wsFree s : wsFree s -> trimEnd s = s.
Proof.
  unfold wsFree. induction s as [|a s IH]; simpl; [reflexivity|].
  intros H. inversion H as [|? ? Ha Hs]; subst. rewrite (IH Hs), Ha.
  destruct s; reflexivity.
Qed.

Lemma trimStart_wsFree s : wsFree s -> trimStart s = s.
Proof.
  unfold wsFree. destruct s as [|a s]; simpl; [reflexivity|].
  intros H. inversion H as [|? ? Ha Hs]; subst. rewrite Ha. reflexivity.
Qed.

Lemma trim_wsFree s : wsFree s -> trim s = s.
Proof.
  intros H. unfold trim. rewrite (trimStart_wsFree s H). apply trimEnd_wsFree, H.
Qed.

Lemma trimEnd_idem s : trimEnd (trimEnd s) = trimEnd s.
Proof.
  induction s as [|a s IH]; simpl; [reflexivity|].
  destruct (trimEnd s) as [|b r] eqn:Ht.
  - destruct (isWhiteSpace a) eqn:Ha; simpl; [reflexivity|]. rewrite Ha. reflexivity.
  - change (trimEnd (String a (String b r)) = String a (String b r)).
    simpl in *. rewrite IH. reflexivity.
Qed.

Lemma trimStart_trimEnd s :
  trimStart s = s -> trimStart (trimEnd s) = trimEnd s.
Proof.
  destruct s as [|a s]; simpl; [reflexivity|].
  destruct (isWhiteSpace a) eqn:Ha.
  - intros H. exfalso.
    assert (Hlen : (String.length (trimStart s) <= String.length s)%nat).
    { clear. induction s as [|b s IH]; simpl; [lia|].
      destruct (isWhiteSpace b); simpl; lia. }
    rewrite H in Hlen. simpl in Hlen. lia.
  - intros _. destruct (trimEnd s); simpl; rewrite Ha; reflexivity.
Qed.

Lemma trimStart_idem s : trimStart (trimStart s) = trimStart s.
Proof.
  induction s as [|a s IH]; simpl; [reflexivity|].
  destruct (isWhiteSpace a) eqn:Ha; [exact IH|]. simpl. rewrite Ha. reflexivity.
Qed.

Lemma trim_idem s : trim (trim s) = trim s.
Proof.
  unfold trim. rewrite trimStart_trimEnd by apply trimStart_idem.
  apply trimEnd_idem.
Qed.

(** X20. Every argument stored from the field is non-empty, contains no
    space, and has no white space at either end. *)
Theorem argsOfText_clean (value arg : string) :
  arg ∈ argsOfText value ->
  arg ≠ "" /\ (" "%char ∉ chars arg) /\ trim arg = arg.
Proof.
  unfold argsOfText. destruct (String.eqb (trim value) ""); [intros H; inversion H|].
  intros [Hne Hin]%list_elem_of_filter.
  apply list_elem_of_fmap in Hin as (x & -> & Hx).
  split; [exact Hne|]. split; [|apply trim_idem].
  intros Hsp. apply trim_chars in Hsp. exact (split_parts _ _ _ Hx Hsp).
Qed.

Lemma argsOfText_clean_witness :
  "--flag" ≠ "" /\ (" "%char ∉ chars "--flag") /\ trim "--flag" = "--flag".
Proof.
  apply (argsOfText_clean "  --flag   -x " "--flag").
  vm_compute. left.
Defined.

Lemma wsFree_no_space s : wsFree s -> " "%char ∉ chars s.
Proof.
  unfold wsFree. intros H Hin. rewrite Forall_forall in H.
  specialize (H _ Hin). discriminate.
Qed.

Lemma split_join (args : list string) :
  args ≠ [] -> Forall wsFree args -> JS.split " " (join " " args) = args.
Proof.
  induction args as [|a [|b r] IH]; intros Hne Hall; [congruence| |].
  - simpl. apply split_without, wsFree_no_space. inversion Hall; assumption.
  - inversion Hall as [|? ? Ha Hrest]; subst.
    change (join " " (a :: b :: r)) with (a +:+ " " +:+ join " " (b :: r)).
    change (" " +:+ join " " (b :: r)) with (String " " (join " " (b :: r))).
    rewrite split_append by (apply wsFree_no_space, Ha).
    rewrite IH by (congruence || assumption). reflexivity.
Qed.

Lemma trim_join_nonempty (a : string) (r : list string) :
  a ≠ "" -> wsFree a -> trim (join " " (a :: r)) ≠ "".
Proof.
  intros Hne Hws. destruct a as [|c a]; [congruence|].
  inversion Hws as [|? ? Hc _]; subst.
  assert (Hj : exists t, join " " (String c a :: r) = String c t).
  { destruct r; simpl; eauto. }
  destruct Hj as (t & ->). unfold trim. simpl. rewrite Hc. simpl.
  destruct (trimEnd t); [rewrite Hc|]; discriminate.
Qed.

(** X21. Showing a list of arguments in the field and reading it back
    gives the same list, for arguments that are non-empty and contain no
    white space; an absent list reads back as the empty list. *)
Theorem args_round_trip (args : list string) :
  Forall (fun a => a ≠ "" /\ wsFree a) args ->
  argsOfText (textOfArgs (Some args)) = args
  /\ argsOfText (textOfArgs None) = [].
Proof.
  intros Hall. split; [|reflexivity].
  destruct args as [|a r]; [reflexivity|].
  assert (Hws : Forall wsFree (a :: r)).
  { eapply Forall_impl; [exact Hall|]. intros x [_ H]. exact H. }
  inversion Hall as [|? ? [Hne Ha] _]; subst.
  unfold argsOfText, textOfArgs.
  destruct (String.eqb_spec (trim (join " " (a :: r))) "") as [He|_].
  - exfalso. exact (trim_join_nonempty a r Hne Ha He).
  - rewrite split_join by (congruence || assumption).
    clear Hne Ha Hws. induction Hall as [|x l [Hx Hwx] _ IH]; [reflexivity|].
    rewrite fmap_cons, (trim_wsFree x Hwx), filter_cons_True by exact Hx.
    rewrite IH. reflexivity.
Qed.

Lemma args_round_trip_witness :
  argsOfText (textOfArgs (Some ["--remote-debugging-port=9222"; "-v"]))
  = ["--remote-debugging-port=9222"; "-v"].
Proof.
  apply (args_round_trip ["--remote-debugging-port=9222"; "-v"]).
  repeat constructor; (discriminate || reflexivity).
Defined.

(** Every character of the text is white space. *)
Definition allWs (s : string) : Prop :=
  Forall (fun c => isWhiteSpace c = true) (chars s).

Lemma trimStart_empty s : trimStart s = "" <-> allWs s.
Proof.
  unfold allWs. induction s as [|a s IH]; simpl.
  - split; [constructor | reflexivity].
  - destruct (isWhiteSpace a) eqn:Ha.
    + rewrite IH. split; [intros H; constructor; assumption|].
      intros H. inversion H; assumption.
    + split; [discriminate|]. intros H. inversion H; congruence.
Qed.

Lemma trimEnd_empty s : trimEnd s = "" <-> allWs s.
Proof.
  unfold allWs. induction s as [|a s IH]; simpl.
  - split; [constructor | reflexivity].
  - destruct (trimEnd s) as [|b r] eqn:Ht.
    + destruct (isWhiteSpace a) eqn:Ha.
      * split; [intros _; constructor; [exact Ha | apply IH; reflexivity] | reflexivity].
      * split; [discriminate|]. intros H. inversion H; congruence.
    + split; [discriminate|]. intros H. inversion H as [|? ? _ Hs]; subst.
      apply IH in Hs. discriminate.
Qed.

Lemma trim_empty s : trim s = "" <-> allWs s.
Proof.
  unfold trim. rewrite trimEnd_empty. split.
  - intros H. apply trimStart_empty. apply trimStart_empty in H.
    rewrite trimStart_idem in H. exact H.
  - intros H. apply trimStart_empty in H. rewrite H. constructor.
Qed.

Lemma chars_append (a b : string) : chars (a +:+ b) = (chars a ++ chars b)%list.
Proof.
  induction a as [|c a IH]; [reflexivity|].
  rewrite append_String. simpl. rewrite IH. reflexivity.
Qed.

Lemma allWs_snoc_space v : allWs (v +:+ " ") <-> allWs v.
Proof.
  unfold allWs. rewrite chars_append, Forall_app. simpl. split.
  - intros [H _]. exact H.
  - intros H. split; [exact H|]. constructor; [reflexivity | constructor].
Qed.

Lemma split_snoc_sep sep v :
  JS.split sep (v +:+ String sep "") = (JS.split sep v ++ [""])%list.
Proof.
  induction v as [|c v IH].
  - rewrite append_nil_l. simpl. rewrite Ascii.eqb_refl. reflexivity.
  - rewrite append_String. simpl. rewrite IH.
    destruct (Ascii.eqb c sep); [reflexivity|].
    destruct (split_nonempty_aux sep v) as (x & xs & ->). reflexivity.
Qed.

(** X22. A space typed at the end of the field is lost: the list stored
    for the text with the space is the list stored for the text without it,
    so the field, which shows the stored list, shows the same text again. *)
Theorem trailing_space_is_lost (value : string) :
  argsOfText (value +:+ " ") = argsOfText value
  /\ textOfArgs (Some (argsOfText (value +:+ " ")))
     = textOfArgs (Some (argsOfText value)).
Proof.
  assert (Heq : argsOfText (value +:+ " ") = argsOfText value); [|rewrite Heq; auto].
  unfold argsOfText.
  destruct (String.eqb_spec (trim value) "") as [He|Hne].
  - apply (proj1 (trim_empty _)), (proj2 (allWs_snoc_space _)),
      (proj2 (trim_empty _)) in He.
    rewrite He. reflexivity.
  - destruct (String.eqb_spec (trim (value +:+ " ")) "") as [He'|_].
    + apply (proj1 (trim_empty _)), (proj1 (allWs_snoc_space _)),
        (proj2 (trim_empty _)) in He'.
      congruence.
    + rewrite split_snoc_sep, fmap_app, filter_app. simpl.
      rewrite filter_cons_False by auto. rewrite filter_nil. apply app_nil_r.
Qed.

End LaunchArgsProps.

(** ** The update notification *)

Module UpdateNotificationProps.

Import UpdateNotification.

(** What holds of the component after every event. *)
Definition Inv (st : State) : Prop :=
  (onCloseCalls st + closeTimers st <= 1)%nat
  /\ (checking st = true ->
      onCloseCalls st = 0%nat /\ closeTimers st = 0%nat /\ updateInfo st = None)
  /\ (isVisible st = true ->
      onCloseCalls st = 0%nat /\ closeTimers st = 0%nat /\ checking st = false)
  /\ (forall info, updateInfo st = Some info -> has_update info = true)
  /\ Forall (fun u => u ≠ "" /\ exists info, updateInfo st = Some info
                                           /\ u = download_url info) (opened st).

Lemma Inv_mounted : Inv mounted.
Proof.
  unfold Inv, mounted. simpl. split; [lia|]. split; [auto|].
  split; [discriminate|]. split; [discriminate | constructor].
Qed.

Lemma rendered_true st :
  rendered st = true -> isVisible st = true /\ exists info, updateInfo st = Some info.
Proof. unfold rendered. destruct (updateInfo st); [eauto | discriminate]. Qed.

Lemma notification_Inv_step st e : Inv st -> Inv (step st e).
Proof.
  intros HI. pose proof HI as (HK & Hchk & Hvis & Hinfo & Hopen).
  destruct e as [r| | |]; simpl.
  - destruct (checking st) eqn:Hc; [|exact HI].
    destruct (Hchk eq_refl) as (H0 & H1 & Hnone).
    assert (Hop : opened st = []).
    { destruct (opened st) as [|u l]; [reflexivity|].
      inversion Hopen as [|? ? [_ (info & Hi & _)] _]; subst. congruence. }
    unfold checkSettled. destruct r as [err|info]; [|destruct (has_update info) eqn:Hu];
      unfold Inv; simpl; rewrite ?H0, ?H1, ?Hop, ?Hnone.
    + split; [lia|]. split; [discriminate|]. split; [intros Hv; destruct (Hvis Hv); lia|].
      split; [discriminate | constructor].
    + split; [lia|]. split; [discriminate|]. split; [auto|].
      split; [intros i [= <-]; exact Hu | constructor].
    + split; [lia|]. split; [discriminate|]. split; [intros Hv; destruct (Hvis Hv); lia|].
      split; [discriminate | constructor].
  - destruct (rendered st) eqn:Hr; [|exact HI].
    unfold handleDownload. destruct (updateInfo st) as [info|] eqn:Hi; [|exact HI].
    destruct (JS.truthy (download_url info)) eqn:Ht; [|exact HI].
    unfold Inv. simpl.
    split; [exact HK|]. split; [exact Hchk|]. split; [exact Hvis|].
    split; [exact Hinfo|].
    apply Forall_app. split; [exact Hopen|]. constructor; [|constructor].
    split; [apply ScheduleExtras.truthy_true, Ht | eauto].
  - destruct (rendered st) eqn:Hr; [|exact HI].
    apply rendered_true in Hr as [Hv _]. destruct (Hvis Hv) as (H0 & H1 & Hc).
    unfold Inv, handleClose. simpl. rewrite H0, H1, Hc.
    split; [lia|]. split; [discriminate|]. split; [discriminate|]. auto.
  - destruct (closeTimers st) as [|n] eqn:Hn; [exact HI|].
    unfold Inv, onClose. simpl.
    split; [lia|]. split; [intros Hc; destruct (Hchk Hc); lia|].
    split; [intros Hv; destruct (Hvis Hv) as (_ & ? & _); lia|]. auto.
Qed.

(** X23. On every run of the notification, [onClose] is called at most
    once, timers still pending included; while the panel is shown it has not
    been called, no timer is pending and the update it shows is one the
    check reported as available; and every URL opened is the non-empty
    download URL of that update. *)
Theorem notification_closes_once (es : list Event) :
  let st := run mounted es in
  (onCloseCalls st + closeTimers st <= 1)%nat
  /\ (rendered st = true ->
      onCloseCalls st = 0%nat /\ closeTimers st = 0%nat
      /\ exists info, updateInfo st = Some info /\ has_update info = true)
  /\ Forall (fun u => u ≠ "" /\ exists info, updateInfo st = Some info
                                           /\ u = download_url info) (opened st).
Proof.
  cbv zeta.
  assert (HI : Inv (run mounted es)).
  { induction es as [|e es IH] using rev_ind; [exact Inv_mounted|].
    unfold run. rewrite foldl_app. simpl. apply notification_Inv_step, IH. }
  destruct HI as (HK & _ & Hvis & Hinfo & Hopen).
  split; [exact HK|]. split; [|exact Hopen].
  intros Hr. apply rendered_true in Hr as [Hv (info & Hi)].
  destruct (Hvis Hv) as (H0 & H1 & _). eauto 6.
Qed.

Lemma notification_closes_once_witness :
  (onCloseCalls
     (run mounted [CheckSettled (inr (mkInfo true "4.0.1" "4.0.0" "https://example.org/d"));
                   ClickDownload; ClickClose; ClickClose; TimerFires; TimerFires])
   + closeTimers
       (run mounted [CheckSettled (inr (mkInfo true "4.0.1" "4.0.0" "https://example.org/d"));
                     ClickDownload; ClickClose; ClickClose; TimerFires; TimerFires])
   <= 1)%nat.
Proof.
  apply (notification_closes_once
    [CheckSettled (inr (mkInfo true "4.0.1" "4.0.0" "https://example.org/d"));
     ClickDownload; ClickClose; ClickClose; TimerFires; TimerFires]).
Defined.

End UpdateNotificationProps.

(** ** The token pool card *)

Module TokenPoolCardProps.

Import TokenPoolCard.

Definition isToggle (t : Task) : bool :=
  match t with ToggleCommand _ | ToggleReload => true | _ => false end.

Definition isCommand (t : Task) : bool :=
  match t with ToggleCommand _ => true | _ => false end.

(** The calls of [handleToggle] that have not returned, and those among
    them whose connect or disconnect command is still pending. *)
Definition togglesInProgress (c : Card) : nat :=
  WatchdogInvariants.tally isToggle (tasks c).

Definition commandsInFlight (c : Card) : nat :=
  WatchdogInvariants.tally isCommand (tasks c).

Definition Inv (c : Card) : Prop :=
  (loading c = true -> togglesInProgress c = 1%nat)
  /\ (loading c = false -> togglesInProgress c = 0%nat).

Lemma commands_le_toggles (l : list Task) :
  (WatchdogInvariants.tally isCommand l <= WatchdogInvariants.tally isToggle l)%nat.
Proof.
  induction l as [|t l IH]; [reflexivity|].
  rewrite !WatchdogInvariants.tally_cons. destruct t; simpl; lia.
Qed.

Lemma card_Inv_step c e : Inv c -> Inv (step c e).
Proof.
  intros [Hon Hoff]. unfold Inv, togglesInProgress in *.
  assert (Hn : WatchdogInvariants.tally isToggle (tasks c)
               = if loading c then 1%nat else 0%nat).
  { destruct (loading c); auto. }
  clear Hon Hoff.
  destruct e as [| | |config|i r|i r]; cbn [step].
  - unfold startLoadStatus. cbn [loading tasks].
    rewrite WatchdogInvariants.tally_app, WatchdogInvariants.tally_cons,
      WatchdogInvariants.tally_nil, Hn.
    destruct (loading c); split; intros H; (discriminate || reflexivity).
  - cbn [loading tasks]. rewrite Hn.
    destruct (loading c); split; intros H; (discriminate || reflexivity).
  - destruct (polling c); unfold startLoadStatus; cbn [loading tasks];
      rewrite ?WatchdogInvariants.tally_app, ?WatchdogInvariants.tally_cons,
        ?WatchdogInvariants.tally_nil, Hn;
      destruct (loading c); split; intros H; (discriminate || reflexivity).
  - destruct (loading c) eqn:Hl.
    + rewrite Hn, Hl. split; intros H; (discriminate || reflexivity).
    + unfold handleToggle, setLoading. cbn [cardStatus loading tasks].
      destruct (enabled (cardStatus c)); cbn [loading tasks];
        rewrite WatchdogInvariants.tally_app, WatchdogInvariants.tally_cons,
          WatchdogInvariants.tally_nil, Hn;
        split; intros H; (discriminate || reflexivity).
  - unfold commandSettled.
    destruct (tasks c !! i) as [[| d | |]|] eqn:Hi;
      try (rewrite Hn; destruct (loading c); split; intros H; (discriminate || reflexivity)).
    pose proof (WatchdogInvariants.tally_insert isToggle (tasks c) i _ Returned Hi) as HR.
    pose proof (WatchdogInvariants.tally_insert isToggle (tasks c) i _ ToggleReload Hi) as HT.
    cbn [isToggle] in HR, HT.
    destruct r as [err|u]; unfold setLoading, showToast, setTask; cbn [loading tasks];
      destruct (loading c); split; intros H; try discriminate; lia.
  - unfold statusSettled.
    destruct (tasks c !! i) as [[| d | |]|] eqn:Hi;
      try (rewrite Hn; destruct (loading c); split; intros H; (discriminate || reflexivity)).
    + pose proof (WatchdogInvariants.tally_insert isToggle (tasks c) i _ Returned Hi) as HR.
      cbn [isToggle] in HR.
      destruct r as [err|s]; unfold setTask, loadStatusSettled; cbn [loading tasks];
        destruct (loading c); split; intros H; try discriminate; lia.
    + pose proof (WatchdogInvariants.tally_insert isToggle (tasks c) i _ Returned Hi) as HR.
      cbn [isToggle] in HR.
      destruct r as [err|s]; unfold setLoading, setTask, loadStatusSettled;
        cbn [loading tasks]; destruct (loading c); split; intros H; try discriminate; lia.
Qed.

(** X24. On every run of the card, [loading] is set exactly while one call
    of [handleToggle] has not returned, there is never more than one such
    call, and so never more than one connect or disconnect command of the
    card in flight; once the call has returned, [loading] is clear again
    whether its command and its status reload succeeded or failed. *)
Theorem card_single_toggle (es : list Event) :
  let c := run initial es in
  (togglesInProgress c <= 1)%nat
  /\ (commandsInFlight c <= 1)%nat
  /\ (loading c = true <-> togglesInProgress c = 1%nat).
Proof.
  cbv zeta.
  assert (HI : Inv (run initial es)).
  { induction es as [|e es IH] using rev_ind; [split; [discriminate | reflexivity]|].
    unfold run. rewrite foldl_app. simpl. apply card_Inv_step, IH. }
  destruct HI as [Hon Hoff].
  pose proof (commands_le_toggles (tasks (run initial es))) as Hle.
  unfold commandsInFlight, togglesInProgress in *.
  destruct (loading (run initial es)).
  - specialize (Hon eq_refl). split; [lia|]. split; [lia|]. split; auto.
  - specialize (Hoff eq_refl). split; [lia|]. split; [lia|].
    split; [discriminate | intros H; lia].
Qed.

Lemma card_single_toggle_witness :
  togglesInProgress
    (run initial [Mount; Click None; Click None; CommandSettled 1 (inr tt); Tick])
  = 1%nat.
Proof.
  apply (card_single_toggle
           [Mount; Click None; Click None; CommandSettled 1 (inr tt); Tick]).
  reflexivity.
Defined.

(** X25. A click on the enabled button sends exactly one command, chosen
    by the [enabled] field of the last status: disconnect when it is set,
    otherwise connect to the endpoint the watchdog would use for the same
    configuration; a click while [loading] sends nothing. *)
Theorem click_sends_one_command (c : Card) (config : AppConfig.t) :
  (loading c = false ->
     calls (step c (Click (Some config)))
     = (calls c ++ [if enabled (cardStatus c) then tokenpool_disconnect
                    else tokenpool_connect (TokenPool.serverUrl config)])%list
     /\ loading (step c (Click (Some config))) = true)
  /\ (loading c = true -> step c (Click (Some config)) = c)
  /\ serverUrl None = TokenPool.defaultServerUrl.
Proof.
  split; [|split; [|reflexivity]].
  - intros Hl. simpl. rewrite Hl. unfold handleToggle. simpl.
    destruct (enabled (cardStatus c)); split; reflexivity.
  - intros Hl. simpl. rewrite Hl. reflexivity.
Qed.

Lemma click_sends_one_command_witness :
  calls (step initial (Click (Some (WatchdogTheorems.autoConfig ""))))
  = [tokenpool_connect "ws://127.0.0.1:8046/ws/supplier"].
Proof.
  apply (click_sends_one_command initial (WatchdogTheorems.autoConfig "")).
  reflexivity.
Defined.

End TokenPoolCardProps.
